(** * half-life: the configuration store ([cmd/config.go])

    A shallow embedding of the configuration types, the defaulting pass
    [getUnsetDefaults], the [AlertType] decoder, [AlertActive] and
    [saveConfig], followed by the properties established about them. *)

From Stdlib Require Import ZArith String List.
From Stdlib Require Import PrimFloat.
From stdpp Require Import gmap strings list fin_maps.

Local Open Scope string_scope.
Local Open Scope Z_scope.

(** ** Constants *)

(** Go's [float64] is IEEE-754 binary64, which is what Rocq's primitive
    floats are.  [99.80] is not a binary fraction; the compiler rounds the
    constant to the nearest double, written here in hexadecimal. *)
Definition float64 := PrimFloat.float.

Definition defaultSlashingPeriodUptimeWarningThreshold : float64 :=
  0x1.8f33333333333p+6%float.
Definition defaultSlashingPeriodUptimeErrorThreshold : float64 := 98%float.
Definition defaultRecentBlocksToCheck : Z := 20.
Definition defaultNotifyEvery : Z := 20.
Definition defaultRecentMissedBlocksNotifyThreshold : Z := 10.
Definition sentryGRPCErrorNotifyThreshold : Z := 1.
Definition sentryOutOfSyncErrorNotifyThreshold : Z := 1.
Definition sentryHaltErrorNotifyThreshold : Z := 1.

(** [x == 0] on a [float64]: IEEE equality, true of both zeros, false of NaN. *)
Definition float64_is_zero (x : float64) : bool := PrimFloat.eqb x 0%float.

(** ** Alert levels and alert types *)

(** [type AlertLevel int8] with four constants numbered by [iota]. *)
Inductive AlertLevel : Type :=
  | alertLevelNone
  | alertLevelWarning
  | alertLevelHigh
  | alertLevelCritical.

(** The [int8] value of each constant: [iota] counts from zero. *)
Definition AlertLevel_int8 (l : AlertLevel) : Z :=
  match l with
  | alertLevelNone => 0
  | alertLevelWarning => 1
  | alertLevelHigh => 2
  | alertLevelCritical => 3
  end.

(** Go compares two [AlertLevel]s as the integers they are. *)
Definition AlertLevel_leb (a b : AlertLevel) : bool :=
  AlertLevel_int8 a <=? AlertLevel_int8 b.
Definition AlertLevel_ltb (a b : AlertLevel) : bool :=
  AlertLevel_int8 a <? AlertLevel_int8 b.

(** [type AlertType string]. *)
Definition AlertType := string.

Definition alertTypeJailed : AlertType := "alertTypeJailed".
Definition alertTypeTombstoned : AlertType := "alertTypeTombstoned".
Definition alertTypeOutOfSync : AlertType := "alertTypeOutOfSync".
Definition alertTypeBlockFetch : AlertType := "alertTypeBlockFetch".
Definition alertTypeMissedRecentBlocks : AlertType := "alertTypeMissedRecentBlocks".
Definition alertTypeGenericRPC : AlertType := "alertTypeGenericRPC".
Definition alertTypeHalt : AlertType := "alertTypeHalt".
Definition alertTypeSlashingSLA : AlertType := "alertTypeSlashingSLA".

Definition alertTypes : list AlertType :=
  [ alertTypeJailed; alertTypeTombstoned; alertTypeOutOfSync;
    alertTypeBlockFetch; alertTypeMissedRecentBlocks; alertTypeGenericRPC;
    alertTypeHalt; alertTypeSlashingSLA ].

(** A Go [error] value, reduced to the text its [Error()] method returns. *)
Record error : Type := errors_New { Error : string }.

(** How a call ends: it returns a value, or a run-time panic unwinds it. *)
Inductive completion (A : Type) : Type :=
  | Return (a : A)
  | Panic.
Arguments Return {A} a.
Arguments Panic {A}.

(** ** Configuration records

    A pointer field whose pointee is only ever read is a [None] (nil) or
    [Some] of the value it points to.  [int64] and [int] values are
    integers; the code below only compares them with constants. *)

Record DiscordWebhookConfig : Type := {
  ID : string;
  Token : string
}.

Record DiscordChannelConfig : Type := {
  Webhook : DiscordWebhookConfig;
  AlertUserIDs : list string;
  Username : string
}.

Record NotificationsConfig : Type := {
  Service : string;
  Discord : option DiscordChannelConfig
}.

Record AlertConfig : Type := {
  IgnoreAlerts : list (option AlertType)
}.

Record Sentry : Type := {
  Sentry_Name : string;
  Sentry_GRPC : string
}.

Record ValidatorMonitor : Type := {
  Name : string;
  RPC : string;
  FullNode : bool;
  Address : string;
  ChainID : string;
  DiscordStatusMessageID : option string;
  RPCRetries : option Z;
  MissedBlocksThreshold : option Z;
  SentryGRPCErrorThreshold : option Z;
  SentryOutOfSyncBlocksThreshold : option Z;
  Sentries : option (list Sentry);

  SlashingPeriodUptimeWarningThreshold : float64;
  SlashingPeriodUptimeErrorThreshold : float64;
  RecentBlocksToCheck : Z;
  NotifyEvery : Z;
  RecentMissedBlocksNotifyThreshold : Z;

  MissedBlocksGreenTo : option Z;
  MissedBlocksYellowFrom : option Z;
  MissedBlocksYellowTo : option Z;
  MissedBlocksRedFrom : option Z
}.

(** [Validators []*ValidatorMonitor] holds pointers: the monitors live in
    the heap, two entries may point to the same monitor, and an entry may
    be nil. *)
Abbreviation addr := positive.

Record HalfLifeConfig : Type := {
  HalfLifeConfig_AlertConfig : AlertConfig;
  Notifications : option NotificationsConfig;
  Validators : list (option addr)
}.

(** The memory a [*HalfLifeConfig] reaches: the struct itself and the
    monitors its [Validators] point to. *)
Record memory : Type := {
  config : HalfLifeConfig;
  monitors : gmap addr ValidatorMonitor
}.

(** ** Field assignment

    [v.F = x] for each field the defaulting pass writes: the monitor with
    field [F] replaced and every other field as it was. *)

Definition set_SlashingPeriodUptimeWarningThreshold (x : float64) (v : ValidatorMonitor)
  : ValidatorMonitor :=
  {| Name := Name v; RPC := RPC v; FullNode := FullNode v;
    Address := Address v; ChainID := ChainID v;
    DiscordStatusMessageID := DiscordStatusMessageID v;
    RPCRetries := RPCRetries v;
    MissedBlocksThreshold := MissedBlocksThreshold v;
    SentryGRPCErrorThreshold := SentryGRPCErrorThreshold v;
    SentryOutOfSyncBlocksThreshold := SentryOutOfSyncBlocksThreshold v;
    Sentries := Sentries v; SlashingPeriodUptimeWarningThreshold := x;
    SlashingPeriodUptimeErrorThreshold := SlashingPeriodUptimeErrorThreshold v;
    RecentBlocksToCheck := RecentBlocksToCheck v;
    NotifyEvery := NotifyEvery v;
    RecentMissedBlocksNotifyThreshold := RecentMissedBlocksNotifyThreshold v;
    MissedBlocksGreenTo := MissedBlocksGreenTo v;
    MissedBlocksYellowFrom := MissedBlocksYellowFrom v;
    MissedBlocksYellowTo := MissedBlocksYellowTo v;
    MissedBlocksRedFrom := MissedBlocksRedFrom v |}.

Definition set_SlashingPeriodUptimeErrorThreshold (x : float64) (v : ValidatorMonitor)
  : ValidatorMonitor :=
  {| Name := Name v; RPC := RPC v; FullNode := FullNode v;
    Address := Address v; ChainID := ChainID v;
    DiscordStatusMessageID := DiscordStatusMessageID v;
    RPCRetries := RPCRetries v;
    MissedBlocksThreshold := MissedBlocksThreshold v;
    SentryGRPCErrorThreshold := SentryGRPCErrorThreshold v;
    SentryOutOfSyncBlocksThreshold := SentryOutOfSyncBlocksThreshold v;
    Sentries := Sentries v;
    SlashingPeriodUptimeWarningThreshold := SlashingPeriodUptimeWarningThreshold v;
    SlashingPeriodUptimeErrorThreshold := x;
    RecentBlocksToCheck := RecentBlocksToCheck v;
    NotifyEvery := NotifyEvery v;
    RecentMissedBlocksNotifyThreshold := RecentMissedBlocksNotifyThreshold v;
    MissedBlocksGreenTo := MissedBlocksGreenTo v;
    MissedBlocksYellowFrom := MissedBlocksYellowFrom v;
    MissedBlocksYellowTo := MissedBlocksYellowTo v;
    MissedBlocksRedFrom := MissedBlocksRedFrom v |}.

Definition set_RecentBlocksToCheck (x : Z) (v : ValidatorMonitor)
  : ValidatorMonitor :=
  {| Name := Name v; RPC := RPC v; FullNode := FullNode v;
    Address := Address v; ChainID := ChainID v;
    DiscordStatusMessageID := DiscordStatusMessageID v;
    RPCRetries := RPCRetries v;
    MissedBlocksThreshold := MissedBlocksThreshold v;
    SentryGRPCErrorThreshold := SentryGRPCErrorThreshold v;
    SentryOutOfSyncBlocksThreshold := SentryOutOfSyncBlocksThreshold v;
    Sentries := Sentries v;
    SlashingPeriodUptimeWarningThreshold := SlashingPeriodUptimeWarningThreshold v;
    SlashingPeriodUptimeErrorThreshold := SlashingPeriodUptimeErrorThreshold v;
    RecentBlocksToCheck := x; NotifyEvery := NotifyEvery v;
    RecentMissedBlocksNotifyThreshold := RecentMissedBlocksNotifyThreshold v;
    MissedBlocksGreenTo := MissedBlocksGreenTo v;
    MissedBlocksYellowFrom := MissedBlocksYellowFrom v;
    MissedBlocksYellowTo := MissedBlocksYellowTo v;
    MissedBlocksRedFrom := MissedBlocksRedFrom v |}.

Definition set_NotifyEvery (x : Z) (v : ValidatorMonitor)
  : ValidatorMonitor :=
  {| Name := Name v; RPC := RPC v; FullNode := FullNode v;
    Address := Address v; ChainID := ChainID v;
    DiscordStatusMessageID := DiscordStatusMessageID v;
    RPCRetries := RPCRetries v;
    MissedBlocksThreshold := MissedBlocksThreshold v;
    SentryGRPCErrorThreshold := SentryGRPCErrorThreshold v;
    SentryOutOfSyncBlocksThreshold := SentryOutOfSyncBlocksThreshold v;
    Sentries := Sentries v;
    SlashingPeriodUptimeWarningThreshold := SlashingPeriodUptimeWarningThreshold v;
    SlashingPeriodUptimeErrorThreshold := SlashingPeriodUptimeErrorThreshold v;
    RecentBlocksToCheck := RecentBlocksToCheck v; NotifyEvery := x;
    RecentMissedBlocksNotifyThreshold := RecentMissedBlocksNotifyThreshold v;
    MissedBlocksGreenTo := MissedBlocksGreenTo v;
    MissedBlocksYellowFrom := MissedBlocksYellowFrom v;
    MissedBlocksYellowTo := MissedBlocksYellowTo v;
    MissedBlocksRedFrom := MissedBlocksRedFrom v |}.

Definition set_RecentMissedBlocksNotifyThreshold (x : Z) (v : ValidatorMonitor)
  : ValidatorMonitor :=
  {| Name := Name v; RPC := RPC v; FullNode := FullNode v;
    Address := Address v; ChainID := ChainID v;
    DiscordStatusMessageID := DiscordStatusMessageID v;
    RPCRetries := RPCRetries v;
    MissedBlocksThreshold := MissedBlocksThreshold v;
    SentryGRPCErrorThreshold := SentryGRPCErrorThreshold v;
    SentryOutOfSyncBlocksThreshold := SentryOutOfSyncBlocksThreshold v;
    Sentries := Sentries v;
    SlashingPeriodUptimeWarningThreshold := SlashingPeriodUptimeWarningThreshold v;
    SlashingPeriodUptimeErrorThreshold := SlashingPeriodUptimeErrorThreshold v;
    RecentBlocksToCheck := RecentBlocksToCheck v;
    NotifyEvery := NotifyEvery v; RecentMissedBlocksNotifyThreshold := x;
    MissedBlocksGreenTo := MissedBlocksGreenTo v;
    MissedBlocksYellowFrom := MissedBlocksYellowFrom v;
    MissedBlocksYellowTo := MissedBlocksYellowTo v;
    MissedBlocksRedFrom := MissedBlocksRedFrom v |}.

Definition set_MissedBlocksGreenTo (x : option Z) (v : ValidatorMonitor)
  : ValidatorMonitor :=
  {| Name := Name v; RPC := RPC v; FullNode := FullNode v;
    Address := Address v; ChainID := ChainID v;
    DiscordStatusMessageID := DiscordStatusMessageID v;
    RPCRetries := RPCRetries v;
    MissedBlocksThreshold := MissedBlocksThreshold v;
    SentryGRPCErrorThreshold := SentryGRPCErrorThreshold v;
    SentryOutOfSyncBlocksThreshold := SentryOutOfSyncBlocksThreshold v;
    Sentries := Sentries v;
    SlashingPeriodUptimeWarningThreshold := SlashingPeriodUptimeWarningThreshold v;
    SlashingPeriodUptimeErrorThreshold := SlashingPeriodUptimeErrorThreshold v;
    RecentBlocksToCheck := RecentBlocksToCheck v;
    NotifyEvery := NotifyEvery v;
    RecentMissedBlocksNotifyThreshold := RecentMissedBlocksNotifyThreshold v;
    MissedBlocksGreenTo := x;
    MissedBlocksYellowFrom := MissedBlocksYellowFrom v;
    MissedBlocksYellowTo := MissedBlocksYellowTo v;
    MissedBlocksRedFrom := MissedBlocksRedFrom v |}.

Definition set_MissedBlocksYellowFrom (x : option Z) (v : ValidatorMonitor)
  : ValidatorMonitor :=
  {| Name := Name v; RPC := RPC v; FullNode := FullNode v;
    Address := Address v; ChainID := ChainID v;
    DiscordStatusMessageID := DiscordStatusMessageID v;
    RPCRetries := RPCRetries v;
    MissedBlocksThreshold := MissedBlocksThreshold v;
    SentryGRPCErrorThreshold := SentryGRPCErrorThreshold v;
    SentryOutOfSyncBlocksThreshold := SentryOutOfSyncBlocksThreshold v;
    Sentries := Sentries v;
    SlashingPeriodUptimeWarningThreshold := SlashingPeriodUptimeWarningThreshold v;
    SlashingPeriodUptimeErrorThreshold := SlashingPeriodUptimeErrorThreshold v;
    RecentBlocksToCheck := RecentBlocksToCheck v;
    NotifyEvery := NotifyEvery v;
    RecentMissedBlocksNotifyThreshold := RecentMissedBlocksNotifyThreshold v;
    MissedBlocksGreenTo := MissedBlocksGreenTo v;
    MissedBlocksYellowFrom := x;
    MissedBlocksYellowTo := MissedBlocksYellowTo v;
    MissedBlocksRedFrom := MissedBlocksRedFrom v |}.

Definition set_MissedBlocksYellowTo (x : option Z) (v : ValidatorMonitor)
  : ValidatorMonitor :=
  {| Name := Name v; RPC := RPC v; FullNode := FullNode v;
    Address := Address v; ChainID := ChainID v;
    DiscordStatusMessageID := DiscordStatusMessageID v;
    RPCRetries := RPCRetries v;
    MissedBlocksThreshold := MissedBlocksThreshold v;
    SentryGRPCErrorThreshold := SentryGRPCErrorThreshold v;
    SentryOutOfSyncBlocksThreshold := SentryOutOfSyncBlocksThreshold v;
    Sentries := Sentries v;
    SlashingPeriodUptimeWarningThreshold := SlashingPeriodUptimeWarningThreshold v;
    SlashingPeriodUptimeErrorThreshold := SlashingPeriodUptimeErrorThreshold v;
    RecentBlocksToCheck := RecentBlocksToCheck v;
    NotifyEvery := NotifyEvery v;
    RecentMissedBlocksNotifyThreshold := RecentMissedBlocksNotifyThreshold v;
    MissedBlocksGreenTo := MissedBlocksGreenTo v;
    MissedBlocksYellowFrom := MissedBlocksYellowFrom v;
    MissedBlocksYellowTo := x;
    MissedBlocksRedFrom := MissedBlocksRedFrom v |}.

Definition set_MissedBlocksRedFrom (x : option Z) (v : ValidatorMonitor)
  : ValidatorMonitor :=
  {| Name := Name v; RPC := RPC v; FullNode := FullNode v;
    Address := Address v; ChainID := ChainID v;
    DiscordStatusMessageID := DiscordStatusMessageID v;
    RPCRetries := RPCRetries v;
    MissedBlocksThreshold := MissedBlocksThreshold v;
    SentryGRPCErrorThreshold := SentryGRPCErrorThreshold v;
    SentryOutOfSyncBlocksThreshold := SentryOutOfSyncBlocksThreshold v;
    Sentries := Sentries v;
    SlashingPeriodUptimeWarningThreshold := SlashingPeriodUptimeWarningThreshold v;
    SlashingPeriodUptimeErrorThreshold := SlashingPeriodUptimeErrorThreshold v;
    RecentBlocksToCheck := RecentBlocksToCheck v;
    NotifyEvery := NotifyEvery v;
    RecentMissedBlocksNotifyThreshold := RecentMissedBlocksNotifyThreshold v;
    MissedBlocksGreenTo := MissedBlocksGreenTo v;
    MissedBlocksYellowFrom := MissedBlocksYellowFrom v;
    MissedBlocksYellowTo := MissedBlocksYellowTo v;
    MissedBlocksRedFrom := x |}.

(** ** [AlertType.UnmarshalYAML]

    The decoder hands in [unmarshal], which fills the string it is given a
    pointer to and reports an error or none; it is any function from the
    string's old content to the new content and the error.  The receiver
    is the [AlertType] variable [at] points to; the call returns its new
    content along with the error. *)

(** The [for _, s := range alertTypes] loop with its two variables. *)
Fixpoint scanAlertTypes (ss : list AlertType) (alertType : string)
    (found : bool) (cur : AlertType) : bool * AlertType :=
  match ss with
  | [] => (found, cur)
  | s :: rest =>
      let a : AlertType := alertType in
      if String.eqb s a
      then scanAlertTypes rest alertType true a
      else scanAlertTypes rest alertType found cur
  end.

Definition UnmarshalYAML (at_ : AlertType)
    (unmarshal : string -> string * option error)
  : AlertType * option error :=
  let '(alertType, err) := unmarshal "" in
  match err with
  | Some e => (at_, Some e)
  | None =>
      let '(found, at') := scanAlertTypes alertTypes alertType false at_ in
      if negb found
      then (at', Some (errors_New "Invalid AlertType"))
      else (at', None)
  end.

(** ** [AlertConfig.AlertActive]

    [*a] on a nil entry of [IgnoreAlerts] is a nil dereference. *)
Fixpoint AlertActive_range (entries : list (option AlertType))
    (alert : AlertType) : completion bool :=
  match entries with
  | [] => Return true
  | None :: _ => Panic
  | Some a :: rest =>
      if String.eqb a alert then Return false
      else AlertActive_range rest alert
  end.

Definition AlertActive (ac : AlertConfig) (alert : AlertType)
  : completion bool :=
  AlertActive_range (IgnoreAlerts ac) alert.

(** ** [HalfLifeConfig.getUnsetDefaults] *)

(** The nine [if] statements of the loop body, each on the monitor
    [c.Validators[idx]] points to. *)
Definition fill_SlashingPeriodUptimeWarningThreshold (v : ValidatorMonitor)
  : ValidatorMonitor :=
  if float64_is_zero (SlashingPeriodUptimeWarningThreshold v)
  then set_SlashingPeriodUptimeWarningThreshold
         defaultSlashingPeriodUptimeWarningThreshold v
  else v.

Definition fill_SlashingPeriodUptimeErrorThreshold (v : ValidatorMonitor)
  : ValidatorMonitor :=
  if float64_is_zero (SlashingPeriodUptimeErrorThreshold v)
  then set_SlashingPeriodUptimeErrorThreshold
         defaultSlashingPeriodUptimeErrorThreshold v
  else v.

Definition fill_RecentBlocksToCheck (v : ValidatorMonitor)
  : ValidatorMonitor :=
  if RecentBlocksToCheck v =? 0
  then set_RecentBlocksToCheck defaultRecentBlocksToCheck v
  else v.

Definition fill_NotifyEvery (v : ValidatorMonitor) : ValidatorMonitor :=
  if NotifyEvery v =? 0 then set_NotifyEvery defaultNotifyEvery v else v.

Definition fill_RecentMissedBlocksNotifyThreshold (v : ValidatorMonitor)
  : ValidatorMonitor :=
  if RecentMissedBlocksNotifyThreshold v =? 0
  then set_RecentMissedBlocksNotifyThreshold
         defaultRecentMissedBlocksNotifyThreshold v
  else v.

Definition fill_MissedBlocksGreenTo (v : ValidatorMonitor)
  : ValidatorMonitor :=
  match MissedBlocksGreenTo v with
  | None => let defaultVal := 49 in set_MissedBlocksGreenTo (Some defaultVal) v
  | Some _ => v
  end.

Definition fill_MissedBlocksYellowFrom (v : ValidatorMonitor)
  : ValidatorMonitor :=
  match MissedBlocksYellowFrom v with
  | None =>
      let defaultVal := 50 in set_MissedBlocksYellowFrom (Some defaultVal) v
  | Some _ => v
  end.

Definition fill_MissedBlocksYellowTo (v : ValidatorMonitor)
  : ValidatorMonitor :=
  match MissedBlocksYellowTo v with
  | None =>
      let defaultVal := 99 in set_MissedBlocksYellowTo (Some defaultVal) v
  | Some _ => v
  end.

Definition fill_MissedBlocksRedFrom (v : ValidatorMonitor)
  : ValidatorMonitor :=
  match MissedBlocksRedFrom v with
  | None =>
      let defaultVal := 100 in set_MissedBlocksRedFrom (Some defaultVal) v
  | Some _ => v
  end.

(** The body of one iteration: the nine statements in the order of the
    source. *)
Definition defaultsOf (v : ValidatorMonitor) : ValidatorMonitor :=
  let v := fill_SlashingPeriodUptimeWarningThreshold v in
  let v := fill_SlashingPeriodUptimeErrorThreshold v in
  let v := fill_RecentBlocksToCheck v in
  let v := fill_NotifyEvery v in
  let v := fill_RecentMissedBlocksNotifyThreshold v in
  let v := fill_MissedBlocksGreenTo v in
  let v := fill_MissedBlocksYellowFrom v in
  let v := fill_MissedBlocksYellowTo v in
  fill_MissedBlocksRedFrom v.

(** [for idx := range c.Validators]: the slice itself is never assigned, so
    the loop visits its entries in order.  Reading a field through a nil
    entry panics, and leaves the monitors visited so far as they are by
    then.  Go has no dangling pointers; an address without a monitor is
    treated like nil. *)
Fixpoint defaultsLoop (ps : list (option addr))
    (h : gmap addr ValidatorMonitor)
  : completion unit * gmap addr ValidatorMonitor :=
  match ps with
  | [] => (Return tt, h)
  | None :: _ => (Panic, h)
  | Some a :: rest =>
      match h !! a with
      | None => (Panic, h)
      | Some v => defaultsLoop rest (<[a := defaultsOf v]> h)
      end
  end.

(** The first statement prints [*c.Notifications]; what matters of it here
    is the dereference (standard output is not part of the memory). *)
Definition getUnsetDefaults (m : memory) : completion unit * memory :=
  match Notifications (config m) with
  | None => (Panic, m)
  | Some _ =>
      let '(r, h) := defaultsLoop (Validators (config m)) (monitors m) in
      (r, {| config := config m; monitors := h |})
  end.

(** ** [saveConfig]

    The outside world of [saveConfig]: the files on disk, and the order in
    which the call locks, prints, writes and unlocks. *)
Inductive event : Type :=
  | EvLock
  | EvUnlock
  | EvPrintf (text : string)
  | EvWriteFile (name : string) (data : list Byte.byte) (perm : Z).

Record world : Type := {
  files : gmap string (list Byte.byte);
  trace : list event
}.

Definition emit (e : event) (w : world) : world :=
  {| files := files w; trace := trace w ++ [e] |}.

(** What the operating system lets a whole-file write do. *)
Inductive write_outcome : Type :=
  | WriteOk
  | OpenFails (e : error)
  | WriteFailsAfter (n : nat) (e : error).

(** Go's [os.WriteFile] (standard library): it opens the file with
    [O_WRONLY|O_CREATE|O_TRUNC], writes the data and closes the file;
    "since WriteFile requires multiple system calls to complete, a failure
    mid-operation can leave the file in a partially written state". *)
Definition os_WriteFile (io : write_outcome) (name : string)
    (data : list Byte.byte) (perm : Z) (w : world) : world * option error :=
  let w := emit (EvWriteFile name data perm) w in
  match io with
  | WriteOk =>
      ({| files := <[name := data]> (files w); trace := trace w |}, None)
  | OpenFails e => (w, Some e)
  | WriteFailsAfter n e =>
      ({| files := <[name := take n data]> (files w); trace := trace w |},
       Some e)
  end.

Definition newline : string := String (Ascii.ascii_of_nat 10) "".

Section SaveConfig.

(** [yaml.Marshal] (gopkg.in/yaml.v2, outside the repository): from the
    config and what it points to, the bytes and the error it returns. *)
Variable yaml_Marshal : memory -> list Byte.byte * option error.

(** [defer writeConfigMutex.Unlock()] runs last.  Neither error makes
    the function return early. *)
Definition saveConfig (configFile : string) (m : memory)
    (io : write_outcome) (w : world) : world :=
  let w := emit EvLock w in
  let '(yamlBytes, err) := yaml_Marshal m in
  let w :=
    match err with
    | Some e =>
        emit (EvPrintf ("Error during config yaml marshal "
                          ++ Error e ++ newline)%string) w
    | None => w
    end in
  let '(w, err) := os_WriteFile io configFile yamlBytes 384 w in
  let w :=
    match err with
    | Some e =>
        emit (EvPrintf ("Error saving config yaml "
                          ++ Error e ++ newline)%string) w
    | None => w
    end in
  emit EvUnlock w.

End SaveConfig.

Definition configFilePath : string := "./config.yaml".

(** ** Missed-block bands *)

(** The three bands, and the level each maps to. *)
Inductive band : Type := green | yellow | red.

(** Modelled from the spec: the band lookup itself is not among the
    sources; the table of section 4.3 gives the count range of each band:
    green [[0, MissedBlocksGreenTo]], yellow
    [[MissedBlocksYellowFrom, MissedBlocksYellowTo]], red
    [[MissedBlocksRedFrom, window size]], the window size being
    [RecentBlocksToCheck].  A band whose boundary is nil holds no count. *)
Definition in_band (v : ValidatorMonitor) (b : band) (count : Z) : bool :=
  match b with
  | green =>
      match MissedBlocksGreenTo v with
      | Some g => (0 <=? count) && (count <=? g)
      | None => false
      end
  | yellow =>
      match MissedBlocksYellowFrom v, MissedBlocksYellowTo v with
      | Some f, Some t => (f <=? count) && (count <=? t)
      | _, _ => false
      end
  | red =>
      match MissedBlocksRedFrom v with
      | Some r => (r <=? count) && (count <=? RecentBlocksToCheck v)
      | None => false
      end
  end.

(** The bands a count falls in. *)
Definition bands_of (v : ValidatorMonitor) (count : Z) : list band :=
  List.filter (fun b => in_band v b count) [green; yellow; red].

(** Modelled from the spec: the invariant of section 3 on the four
    boundaries, monotonic: green-to < yellow-from <= yellow-to < red-from. *)
Definition bands_monotonic (v : ValidatorMonitor) : Prop :=
  match MissedBlocksGreenTo v, MissedBlocksYellowFrom v,
        MissedBlocksYellowTo v, MissedBlocksRedFrom v with
  | Some g, Some yf, Some yt, Some r => g < yf /\ yf <= yt /\ yt < r
  | _, _, _, _ => False
  end.

(** ** What the defaulting pass is to do to one monitor

    [defaulted v v']: [v'] is [v] with each unset threshold replaced by its
    default, stated field by field.  A value field is unset when it
    compares equal to zero, a pointer field when it is nil; a pointer to
    zero is set. *)
Definition defaulted (v v' : ValidatorMonitor) : Prop :=
  Name v' = Name v /\
  RPC v' = RPC v /\
  FullNode v' = FullNode v /\
  Address v' = Address v /\
  ChainID v' = ChainID v /\
  DiscordStatusMessageID v' = DiscordStatusMessageID v /\
  RPCRetries v' = RPCRetries v /\
  MissedBlocksThreshold v' = MissedBlocksThreshold v /\
  SentryGRPCErrorThreshold v' = SentryGRPCErrorThreshold v /\
  SentryOutOfSyncBlocksThreshold v' = SentryOutOfSyncBlocksThreshold v /\
  Sentries v' = Sentries v /\
  SlashingPeriodUptimeWarningThreshold v'
  = (if float64_is_zero (SlashingPeriodUptimeWarningThreshold v)
     then defaultSlashingPeriodUptimeWarningThreshold
     else SlashingPeriodUptimeWarningThreshold v) /\
  SlashingPeriodUptimeErrorThreshold v'
  = (if float64_is_zero (SlashingPeriodUptimeErrorThreshold v)
     then defaultSlashingPeriodUptimeErrorThreshold
     else SlashingPeriodUptimeErrorThreshold v) /\
  RecentBlocksToCheck v'
  = (if RecentBlocksToCheck v =? 0 then defaultRecentBlocksToCheck
     else RecentBlocksToCheck v) /\
  NotifyEvery v'
  = (if NotifyEvery v =? 0 then defaultNotifyEvery else NotifyEvery v) /\
  RecentMissedBlocksNotifyThreshold v'
  = (if RecentMissedBlocksNotifyThreshold v =? 0
     then defaultRecentMissedBlocksNotifyThreshold
     else RecentMissedBlocksNotifyThreshold v) /\
  MissedBlocksGreenTo v'
  = match MissedBlocksGreenTo v with None => Some 49 | Some x => Some x end /\
  MissedBlocksYellowFrom v'
  = match MissedBlocksYellowFrom v with None => Some 50 | Some x => Some x end /\
  MissedBlocksYellowTo v'
  = match MissedBlocksYellowTo v with None => Some 99 | Some x => Some x end /\
  MissedBlocksRedFrom v'
  = match MissedBlocksRedFrom v with None => Some 100 | Some x => Some x end.

(** ** Sample configurations *)

(** A monitor as the decoder leaves it when the file gives only the
    identity of the validator. *)
Definition bareMonitor : ValidatorMonitor :=
  {| Name := "hub"; RPC := "http://localhost:26657"; FullNode := false;
     Address := "cosmosvalcons1example"; ChainID := "cosmoshub-4";
     DiscordStatusMessageID := None; RPCRetries := None;
     MissedBlocksThreshold := None; SentryGRPCErrorThreshold := None;
     SentryOutOfSyncBlocksThreshold := None; Sentries := None;
     SlashingPeriodUptimeWarningThreshold := 0%float;
     SlashingPeriodUptimeErrorThreshold := 0%float;
     RecentBlocksToCheck := 0; NotifyEvery := 0;
     RecentMissedBlocksNotifyThreshold := 0;
     MissedBlocksGreenTo := None; MissedBlocksYellowFrom := None;
     MissedBlocksYellowTo := None; MissedBlocksRedFrom := None |}.

(** A monitor with some thresholds chosen, one of them a pointer to zero. *)
Definition tunedMonitor : ValidatorMonitor :=
  {| Name := "osmo"; RPC := "http://localhost:36657"; FullNode := true;
     Address := "osmovalcons1example"; ChainID := "osmosis-1";
     DiscordStatusMessageID := Some "1001"; RPCRetries := Some 5;
     MissedBlocksThreshold := None; SentryGRPCErrorThreshold := None;
     SentryOutOfSyncBlocksThreshold := None;
     Sentries := Some [ {| Sentry_Name := "s1"; Sentry_GRPC := "s1:9090" |} ];
     SlashingPeriodUptimeWarningThreshold := 99.5%float;
     SlashingPeriodUptimeErrorThreshold := 0%float;
     RecentBlocksToCheck := 50; NotifyEvery := 0;
     RecentMissedBlocksNotifyThreshold := 7;
     MissedBlocksGreenTo := Some 0; MissedBlocksYellowFrom := None;
     MissedBlocksYellowTo := Some 30; MissedBlocksRedFrom := None |}.

Definition discordNotifications : NotificationsConfig :=
  {| Service := "discord";
     Discord := Some {| Webhook := {| ID := "42"; Token := "secret" |};
                        AlertUserIDs := ["7"]; Username := "half-life" |} |}.

(** Two monitors; the first is listed twice. *)
Definition sampleMemory : memory :=
  {| config :=
       {| HalfLifeConfig_AlertConfig :=
            {| IgnoreAlerts := [Some alertTypeHalt] |};
          Notifications := Some discordNotifications;
          Validators := [Some 1%positive; Some 2%positive; Some 1%positive] |};
     monitors := {[ 1%positive := bareMonitor; 2%positive := tunedMonitor ]} |}.

(** The same without a [notifications] section. *)
Definition silentMemory : memory :=
  {| config :=
       {| HalfLifeConfig_AlertConfig := {| IgnoreAlerts := [] |};
          Notifications := None;
          Validators := [Some 1%positive] |};
     monitors := {[ 1%positive := bareMonitor ]} |}.

(** A list with a nil entry after the first monitor. *)
Definition holedMemory : memory :=
  {| config :=
       {| HalfLifeConfig_AlertConfig := {| IgnoreAlerts := [] |};
          Notifications := Some discordNotifications;
          Validators := [Some 1%positive; None; Some 2%positive] |};
     monitors := {[ 1%positive := bareMonitor; 2%positive := tunedMonitor ]} |}.

(** A marshaller that succeeds with a fixed document, and one that fails
    the way [yaml.Marshal] does, with no bytes. *)
Definition sampleYaml : list Byte.byte :=
  list_byte_of_string "validators: []".

Definition marshalOk (_ : memory) : list Byte.byte * option error :=
  (sampleYaml, None).

Definition marshalFails (_ : memory) : list Byte.byte * option error :=
  ([], Some (errors_New "cannot marshal")).

(** A disk that already holds a config file. *)
Definition sampleWorld : world :=
  {| files := {[ configFilePath := list_byte_of_string "alerts: {}" ]};
     trace := [] |}.

(** ** What the rest of the program finds after defaulting

    No threshold left at zero, no band boundary left nil. *)
Definition nothing_unset (v : ValidatorMonitor) : Prop :=
  float64_is_zero (SlashingPeriodUptimeWarningThreshold v) = false /\
  float64_is_zero (SlashingPeriodUptimeErrorThreshold v) = false /\
  RecentBlocksToCheck v <> 0 /\
  NotifyEvery v <> 0 /\
  RecentMissedBlocksNotifyThreshold v <> 0 /\
  MissedBlocksGreenTo v <> None /\
  MissedBlocksYellowFrom v <> None /\
  MissedBlocksYellowTo v <> None /\
  MissedBlocksRedFrom v <> None.

(** The whole-file writes recorded in a trace, in order. *)
Fixpoint writes_of (tr : list event)
  : list (string * list Byte.byte * Z) :=
  match tr with
  | [] => []
  | EvWriteFile name data perm :: rest => (name, data, perm) :: writes_of rest
  | _ :: rest => writes_of rest
  end.

(** The lock and unlock events of a trace, in order. *)
Fixpoint mutex_events (tr : list event) : list event :=
  match tr with
  | [] => []
  | EvLock :: rest => EvLock :: mutex_events rest
  | EvUnlock :: rest => EvUnlock :: mutex_events rest
  | _ :: rest => mutex_events rest
  end.

(** The sample config with its monitors listed the other way round, the
    first one once. *)
Definition reorderedMemory : memory :=
  {| config :=
       {| HalfLifeConfig_AlertConfig :=
            {| IgnoreAlerts := [Some alertTypeHalt] |};
          Notifications := Some discordNotifications;
          Validators := [Some 2%positive; Some 1%positive] |};
     monitors := monitors sampleMemory |}.

(** * Properties *)

Example warning_default_is_99_80 :
  PrimFloat.eqb defaultSlashingPeriodUptimeWarningThreshold
    (PrimFloat.div 998 10) = true.
Proof. reflexivity. Qed.


(** ** The closed set of alert types *)

Lemma scanAlertTypes_existsb (ss : list AlertType) (s : string)
    (found : bool) (cur : AlertType) :
  scanAlertTypes ss s found cur
  = if existsb (fun x => String.eqb x s) ss then (true, s) else (found, cur).
Proof.
  revert found cur.
  induction ss as [|x ss IH]; intros found cur; [reflexivity|].
  cbn [scanAlertTypes existsb]. cbv zeta.
  destruct (String.eqb x s); cbn [orb]; rewrite IH; [|reflexivity].
  by destruct (existsb (fun y => String.eqb y s) ss).
Qed.

Lemma existsb_eqb_In (ss : list AlertType) (s : string) :
  existsb (fun x => String.eqb x s) ss = true <-> In s ss.
Proof.
  rewrite existsb_exists. split.
  - intros (x & Hx & Heq). apply String.eqb_eq in Heq. by subst.
  - intros Hin. exists s. split; [done|]. apply String.eqb_refl.
Qed.

Lemma scanAlertTypes_member (ss : list AlertType) (s : string)
    (found : bool) (cur : AlertType) :
  In s ss -> scanAlertTypes ss s found cur = (true, s).
Proof.
  intros Hin. rewrite scanAlertTypes_existsb.
  apply existsb_eqb_In in Hin. by rewrite Hin.
Qed.

Lemma scanAlertTypes_stranger (ss : list AlertType) (s : string)
    (found : bool) (cur : AlertType) :
  ~ In s ss -> scanAlertTypes ss s found cur = (found, cur).
Proof.
  intros Hout. rewrite scanAlertTypes_existsb.
  destruct (existsb (fun y => String.eqb y s) ss) eqn:Hex; [|reflexivity].
  exfalso. by apply Hout, existsb_eqb_In.
Qed.

(** C2.  When the decoder's string unmarshal succeeds with the string [s]:
    if [s] is one of the eight declared alert types, [UnmarshalYAML]
    returns no error and the receiver holds [s]; for every other string it
    returns the error "Invalid AlertType". *)
Theorem UnmarshalYAML_accepts_exactly_alertTypes
    (at_ : AlertType) (unmarshal : string -> string * option error)
    (s : string) :
  unmarshal "" = (s, None) ->
  (In s alertTypes -> UnmarshalYAML at_ unmarshal = (s, None)) /\
  (~ In s alertTypes ->
   UnmarshalYAML at_ unmarshal
   = (at_, Some (errors_New "Invalid AlertType"))).
Proof.
  intros Hu. unfold UnmarshalYAML. rewrite Hu. split; intros Hs.
  - by rewrite (scanAlertTypes_member _ _ _ _ Hs).
  - by rewrite (scanAlertTypes_stranger _ _ _ _ Hs).
Qed.

Lemma UnmarshalYAML_accepts_exactly_alertTypes_witness :
  (fun _ : string => (alertTypeHalt, @None error)) "" = (alertTypeHalt, None) /\
  In alertTypeHalt alertTypes /\
  UnmarshalYAML alertTypeJailed (fun _ => (alertTypeHalt, None))
  = (alertTypeHalt, None).
Proof.
  split; [reflexivity|].
  assert (Hin : In alertTypeHalt alertTypes) by (cbv; tauto).
  split; [exact Hin|].
  exact (proj1 (UnmarshalYAML_accepts_exactly_alertTypes alertTypeJailed
                  (fun _ => (alertTypeHalt, None)) alertTypeHalt eq_refl)
           Hin).
Defined.

Example UnmarshalYAML_rejects_unknown :
  UnmarshalYAML alertTypeJailed (fun _ => ("alertTypeUnknown", None))
  = (alertTypeJailed, Some (errors_New "Invalid AlertType")).
Proof. reflexivity. Qed.

Example UnmarshalYAML_is_case_sensitive :
  UnmarshalYAML alertTypeJailed (fun _ => ("alerttypehalt", None))
  = (alertTypeJailed, Some (errors_New "Invalid AlertType")).
Proof. reflexivity. Qed.

(** C10.  Whenever [UnmarshalYAML] returns an error, be it the error of
    the string unmarshal or "Invalid AlertType", the receiver holds what it
    held before the call. *)
Theorem UnmarshalYAML_error_keeps_receiver
    (at_ : AlertType) (unmarshal : string -> string * option error)
    (e : error) :
  snd (UnmarshalYAML at_ unmarshal) = Some e ->
  fst (UnmarshalYAML at_ unmarshal) = at_.
Proof.
  unfold UnmarshalYAML.
  destruct (unmarshal "") as [s [e'|]]; [done|].
  destruct (in_dec string_dec s alertTypes) as [Hs|Hs].
  - by rewrite (scanAlertTypes_member _ _ _ _ Hs).
  - by rewrite (scanAlertTypes_stranger _ _ _ _ Hs).
Qed.

Lemma UnmarshalYAML_error_keeps_receiver_witness :
  snd (UnmarshalYAML alertTypeJailed (fun _ => ("alertTypeUnknown", None)))
  = Some (errors_New "Invalid AlertType") /\
  fst (UnmarshalYAML alertTypeJailed (fun _ => ("alertTypeUnknown", None)))
  = alertTypeJailed.
Proof.
  split; [reflexivity|].
  apply (UnmarshalYAML_error_keeps_receiver alertTypeJailed
           (fun _ => ("alertTypeUnknown", None))
           (errors_New "Invalid AlertType")).
  reflexivity.
Defined.

Example UnmarshalYAML_passes_on_decoder_error :
  UnmarshalYAML alertTypeJailed
    (fun _ => (alertTypeHalt, Some (errors_New "cannot unmarshal")))
  = (alertTypeJailed, Some (errors_New "cannot unmarshal")).
Proof. reflexivity. Qed.

(** ** Ignored alerts *)

Lemma AlertActive_range_false (entries : list (option AlertType))
    (alert : AlertType) :
  AlertActive_range entries alert = Return false -> In (Some alert) entries.
Proof.
  induction entries as [|[a|] rest IH]; cbn [AlertActive_range]; try done.
  destruct (String.eqb_spec a alert) as [->|_]; intros H.
  - by left.
  - right. by apply IH.
Qed.

Lemma AlertActive_range_true (entries : list (option AlertType))
    (alert : AlertType) :
  AlertActive_range entries alert = Return true ->
  ~ In (Some alert) entries /\ Forall (fun e => e <> None) entries.
Proof.
  induction entries as [|[a|] rest IH]; cbn [AlertActive_range]; try done.
  - intros _. split; [intros []|constructor].
  - destruct (String.eqb_spec a alert) as [->|Hne]; [done|].
    intros H. destruct (IH H) as [Hout Hnn]. split.
    + intros [Heq|Hin]; [congruence|done].
    + by constructor.
Qed.

Lemma AlertActive_range_no_nil (entries : list (option AlertType))
    (alert : AlertType) :
  Forall (fun e => e <> None) entries ->
  AlertActive_range entries alert
  = Return (negb (existsb (fun e =>
                    match e with
                    | Some a => String.eqb a alert
                    | None => false
                    end) entries)).
Proof.
  induction 1 as [|[a|] rest Hnn _ IH]; cbn [AlertActive_range existsb];
    try done.
  destruct (String.eqb a alert); [done|]. by rewrite IH.
Qed.

(** C7, as the code has it.  For every [AlertConfig] and alert type [a]:
    when [AlertActive] returns false, [a] is pointed to by an entry of
    [IgnoreAlerts]; when it returns true, no entry points to [a], so an
    ignored type is never reported active; and when no entry of
    [IgnoreAlerts] is nil, it returns false if some entry points to [a]
    and true otherwise. *)
Theorem AlertActive_iff_not_ignored (ac : AlertConfig) (a : AlertType) :
  (AlertActive ac a = Return false -> In (Some a) (IgnoreAlerts ac)) /\
  (AlertActive ac a = Return true -> ~ In (Some a) (IgnoreAlerts ac)) /\
  (Forall (fun e => e <> None) (IgnoreAlerts ac) ->
   (In (Some a) (IgnoreAlerts ac) -> AlertActive ac a = Return false) /\
   (~ In (Some a) (IgnoreAlerts ac) -> AlertActive ac a = Return true)).
Proof.
  unfold AlertActive. split; [apply AlertActive_range_false|].
  split; [intros H; by apply AlertActive_range_true in H as [? _]|].
  intros Hnn. pose proof (AlertActive_range_no_nil _ a Hnn) as Heq.
  destruct (AlertActive_range (IgnoreAlerts ac) a) as [[|]|] eqn:Hr;
    try done.
  - apply AlertActive_range_true in Hr as [Hout _]. split; [done|by intros _].
  - apply AlertActive_range_false in Hr. split; [by intros _|done].
Qed.

Lemma AlertActive_iff_not_ignored_witness :
  let ac := {| IgnoreAlerts := [Some alertTypeHalt; Some alertTypeJailed] |} in
  Forall (fun e : option AlertType => e <> None) (IgnoreAlerts ac) /\
  In (Some alertTypeJailed) (IgnoreAlerts ac) /\
  AlertActive ac alertTypeJailed = Return false /\
  ~ In (Some alertTypeOutOfSync) (IgnoreAlerts ac) /\
  AlertActive ac alertTypeOutOfSync = Return true.
Proof.
  intros ac.
  assert (Hnn : Forall (fun e : option AlertType => e <> None)
                  (IgnoreAlerts ac))
    by (repeat constructor; discriminate).
  assert (Hin : In (Some alertTypeJailed) (IgnoreAlerts ac))
    by (right; left; reflexivity).
  assert (Hout : ~ In (Some alertTypeOutOfSync) (IgnoreAlerts ac))
    by (intros [H|[H|[]]]; discriminate H).
  split; [exact Hnn|]. split; [exact Hin|].
  split;
    [exact (proj1 (proj2 (proj2
              (AlertActive_iff_not_ignored ac alertTypeJailed)) Hnn) Hin)|].
  split; [exact Hout|].
  exact (proj2 (proj2 (proj2
           (AlertActive_iff_not_ignored ac alertTypeOutOfSync)) Hnn) Hout).
Defined.

(** C7, as the claim has it, fails where an entry of [IgnoreAlerts] is nil
    (in YAML, a null item of [ignore-alerts]): no entry points to
    [alertTypeJailed], yet the call does not return true, it panics. *)
Lemma AlertActive_nil_entry_panics :
  let ac := {| IgnoreAlerts := [None] |} in
  AlertActive ac alertTypeJailed = Panic /\
  ~ ((AlertActive ac alertTypeJailed = Return false
      <-> In (Some alertTypeJailed) (IgnoreAlerts ac)) /\
     (~ In (Some alertTypeJailed) (IgnoreAlerts ac) ->
      AlertActive ac alertTypeJailed = Return true)).
Proof.
  intros ac. split; [reflexivity|].
  intros [_ Htrue].
  assert (Hout : ~ In (Some alertTypeJailed) (IgnoreAlerts ac))
    by (intros [H|[]]; discriminate H).
  specialize (Htrue Hout). discriminate Htrue.
Qed.

(** ** The order of alert levels *)

Lemma AlertLevel_leb_total (a b : AlertLevel) :
  AlertLevel_leb a b = true \/ AlertLevel_leb b a = true.
Proof. destruct a, b; cbv; tauto. Qed.

Lemma AlertLevel_leb_trans (a b c : AlertLevel) :
  AlertLevel_leb a b = true -> AlertLevel_leb b c = true ->
  AlertLevel_leb a c = true.
Proof. unfold AlertLevel_leb. rewrite !Z.leb_le. lia. Qed.

Lemma AlertLevel_leb_antisym (a b : AlertLevel) :
  AlertLevel_leb a b = true -> AlertLevel_leb b a = true -> a = b.
Proof. destruct a, b; cbv; congruence. Qed.

Lemma AlertLevel_leb_critical (a : AlertLevel) :
  AlertLevel_leb a alertLevelCritical = true.
Proof. by destruct a. Qed.

Lemma AlertLevel_list_has_max (ls : list AlertLevel) :
  ls <> [] ->
  exists m, In m ls /\ forall l, In l ls -> AlertLevel_leb l m = true.
Proof.
  induction ls as [|x ls IH]; [done|]. intros _.
  destruct ls as [|y ls].
  - exists x. split; [by left|]. intros l [<-|[]]. by destruct x.
  - destruct IH as (m & Hm & Hub); [done|].
    destruct (AlertLevel_leb_total x m) as [Hxm|Hmx].
    + exists m. split; [by right|]. intros l [<-|Hl]; [done|by apply Hub].
    + exists x. split; [by left|]. intros l [<-|Hl]; [by destruct x|].
      eapply AlertLevel_leb_trans; [by apply Hub|done].
Qed.

(** C5.  The four alert levels are the integers 0 < 1 < 2 < 3 in the order
    none, warning, high, critical; every non-empty collection of levels has
    exactly one maximum among its members; and when critical is in the
    collection, that maximum is critical. *)
Theorem AlertLevel_ordered_with_maximum :
  (AlertLevel_int8 alertLevelNone = 0 /\
   AlertLevel_int8 alertLevelWarning = 1 /\
   AlertLevel_int8 alertLevelHigh = 2 /\
   AlertLevel_int8 alertLevelCritical = 3) /\
  (AlertLevel_ltb alertLevelNone alertLevelWarning = true /\
   AlertLevel_ltb alertLevelWarning alertLevelHigh = true /\
   AlertLevel_ltb alertLevelHigh alertLevelCritical = true) /\
  forall ls : list AlertLevel, ls <> [] ->
    exists m,
      (In m ls /\ forall l, In l ls -> AlertLevel_leb l m = true) /\
      (forall m', In m' ls ->
                  (forall l, In l ls -> AlertLevel_leb l m' = true) ->
                  m' = m) /\
      (In alertLevelCritical ls -> m = alertLevelCritical).
Proof.
  split; [done|]. split; [done|].
  intros ls Hne.
  destruct (AlertLevel_list_has_max ls Hne) as (m & Hm & Hub).
  exists m. split; [done|]. split.
  - intros m' Hm' Hub'.
    apply AlertLevel_leb_antisym; [by apply Hub|by apply Hub'].
  - intros Hc. apply AlertLevel_leb_antisym;
      [apply AlertLevel_leb_critical|by apply Hub].
Qed.

Lemma AlertLevel_ordered_with_maximum_witness :
  let ls := [alertLevelWarning; alertLevelCritical; alertLevelNone] in
  ls <> [] /\
  exists m,
    (In m ls /\ forall l, In l ls -> AlertLevel_leb l m = true) /\
    (forall m', In m' ls ->
                (forall l, In l ls -> AlertLevel_leb l m' = true) ->
                m' = m) /\
    (In alertLevelCritical ls -> m = alertLevelCritical).
Proof.
  intros ls.
  assert (Hne : ls <> []) by discriminate.
  split; [exact Hne|].
  exact (proj2 (proj2 AlertLevel_ordered_with_maximum) ls Hne).
Defined.

(** ** Defaulting *)

(** C9.  When [Notifications] is nil, [getUnsetDefaults] panics on its
    first statement and no monitor has been given a default. *)
Theorem getUnsetDefaults_nil_Notifications (m : memory) :
  Notifications (config m) = None ->
  getUnsetDefaults m = (Panic, m).
Proof. intros H. unfold getUnsetDefaults. by rewrite H. Qed.

Lemma getUnsetDefaults_nil_Notifications_witness :
  Notifications (config silentMemory) = None /\
  getUnsetDefaults silentMemory = (Panic, silentMemory).
Proof.
  split; [reflexivity|].
  apply (getUnsetDefaults_nil_Notifications silentMemory). reflexivity.
Defined.

Example getUnsetDefaults_nil_entry_panics_midway :
  getUnsetDefaults holedMemory
  = (Panic,
     {| config := config holedMemory;
        monitors := {[ 1%positive := defaultsOf bareMonitor;
                       2%positive := tunedMonitor ]} |}).
Proof. vm_compute. reflexivity. Qed.

Lemma float64_defaults_nonzero :
  float64_is_zero defaultSlashingPeriodUptimeWarningThreshold = false /\
  float64_is_zero defaultSlashingPeriodUptimeErrorThreshold = false.
Proof. split; reflexivity. Qed.

Ltac monitor_fields :=
  cbn [Name RPC FullNode Address ChainID DiscordStatusMessageID RPCRetries
       MissedBlocksThreshold SentryGRPCErrorThreshold
       SentryOutOfSyncBlocksThreshold Sentries
       SlashingPeriodUptimeWarningThreshold SlashingPeriodUptimeErrorThreshold
       RecentBlocksToCheck NotifyEvery RecentMissedBlocksNotifyThreshold
       MissedBlocksGreenTo MissedBlocksYellowFrom MissedBlocksYellowTo
       MissedBlocksRedFrom
       set_SlashingPeriodUptimeWarningThreshold
       set_SlashingPeriodUptimeErrorThreshold set_RecentBlocksToCheck
       set_NotifyEvery set_RecentMissedBlocksNotifyThreshold
       set_MissedBlocksGreenTo set_MissedBlocksYellowFrom
       set_MissedBlocksYellowTo set_MissedBlocksRedFrom] in *.

(** The nine statements together do what [defaulted] asks, field by
    field: one case per outcome of each test. *)
Lemma defaultsOf_defaulted (v : ValidatorMonitor) : defaulted v (defaultsOf v).
Proof.
  destruct v as [n r f a c d rr mt sg so se w e rb ne rm g yf yt rf].
  unfold defaultsOf, defaulted. cbv zeta.
  unfold fill_SlashingPeriodUptimeWarningThreshold. monitor_fields.
  destruct (float64_is_zero w); monitor_fields.
  all: unfold fill_SlashingPeriodUptimeErrorThreshold; monitor_fields;
    destruct (float64_is_zero e); monitor_fields.
  all: unfold fill_RecentBlocksToCheck; monitor_fields;
    destruct (rb =? 0); monitor_fields.
  all: unfold fill_NotifyEvery; monitor_fields;
    destruct (ne =? 0); monitor_fields.
  all: unfold fill_RecentMissedBlocksNotifyThreshold; monitor_fields;
    destruct (rm =? 0); monitor_fields.
  all: unfold fill_MissedBlocksGreenTo; monitor_fields;
    destruct g; monitor_fields.
  all: unfold fill_MissedBlocksYellowFrom; monitor_fields;
    destruct yf; monitor_fields.
  all: unfold fill_MissedBlocksYellowTo; monitor_fields;
    destruct yt; monitor_fields.
  all: unfold fill_MissedBlocksRedFrom; monitor_fields;
    destruct rf; monitor_fields.
  all: repeat split.
Qed.

(** [defaulted v] determines its result. *)
Lemma defaulted_functional (v a b : ValidatorMonitor) :
  defaulted v a -> defaulted v b -> a = b.
Proof.
  destruct a, b. unfold defaulted. monitor_fields.
  intros
    (?&?&?&?&?&?&?&?&?&?&?&?&?&?&?&?&?&?&?&?)
    (?&?&?&?&?&?&?&?&?&?&?&?&?&?&?&?&?&?&?&?).
  subst. reflexivity.
Qed.

(** A defaulted monitor has nothing left to fill. *)
Lemma defaulted_stable (v v' : ValidatorMonitor) :
  defaulted v v' -> defaulted v' v'.
Proof.
  destruct float64_defaults_nonzero as [Hw He].
  unfold defaulted.
  intros (_&_&_&_&_&_&_&_&_&_&_&H1&H2&H3&H4&H5&H6&H7&H8&H9).
  repeat (split; [reflexivity|]).
  split; [|split; [|split; [|split; [|split; [|split; [|split; [|split]]]]]]].
  - rewrite H1.
    destruct (float64_is_zero (SlashingPeriodUptimeWarningThreshold v)) eqn:E;
      [by rewrite Hw | by rewrite E].
  - rewrite H2.
    destruct (float64_is_zero (SlashingPeriodUptimeErrorThreshold v)) eqn:E;
      [by rewrite He | by rewrite E].
  - rewrite H3. by destruct (RecentBlocksToCheck v =? 0) eqn:E; [|rewrite E].
  - rewrite H4. by destruct (NotifyEvery v =? 0) eqn:E; [|rewrite E].
  - rewrite H5.
    by destruct (RecentMissedBlocksNotifyThreshold v =? 0) eqn:E; [|rewrite E].
  - rewrite H6. by destruct (MissedBlocksGreenTo v).
  - rewrite H7. by destruct (MissedBlocksYellowFrom v).
  - rewrite H8. by destruct (MissedBlocksYellowTo v).
  - rewrite H9. by destruct (MissedBlocksRedFrom v).
Qed.

Lemma defaultsOf_idempotent (v : ValidatorMonitor) :
  defaultsOf (defaultsOf v) = defaultsOf v.
Proof.
  apply (defaulted_functional (defaultsOf v)).
  - apply defaultsOf_defaulted.
  - apply (defaulted_stable v), defaultsOf_defaulted.
Qed.

(** *** The loop over the monitors *)

(** Whatever the loop reaches is defaulted; nothing else changes.  A
    monitor listed twice is defaulted twice, to the same effect. *)
Lemma defaultsLoop_lookup (ps : list (option addr))
    (h : gmap addr ValidatorMonitor) (a : addr) :
  snd (defaultsLoop ps h) !! a = h !! a \/
  exists v, In (Some a) ps /\ h !! a = Some v /\
            snd (defaultsLoop ps h) !! a = Some (defaultsOf v).
Proof.
  revert h. induction ps as [|[a0|] rest IH]; intros h;
    cbn [defaultsLoop]; [by left| |by left].
  destruct (h !! a0) as [v0|] eqn:Hv0; [|by left].
  destruct (IH (<[a0 := defaultsOf v0]> h)) as [Hsame|(v & Hin & Hv & Hv')].
  - rewrite Hsame. destruct (decide (a0 = a)) as [->|Hne].
    + right. exists v0. rewrite lookup_insert_eq. split; [by left|done].
    + left. by rewrite lookup_insert_ne.
  - right. destruct (decide (a0 = a)) as [->|Hne].
    + rewrite lookup_insert_eq in Hv. injection Hv as <-.
      exists v0. rewrite Hv', defaultsOf_idempotent. split; [by left|done].
    + rewrite lookup_insert_ne in Hv by done.
      exists v. split; [by right|done].
Qed.

(** When the loop runs to its end, every listed monitor is defaulted. *)
Lemma defaultsLoop_returns (ps : list (option addr))
    (h : gmap addr ValidatorMonitor) (a : addr) :
  fst (defaultsLoop ps h) = Return tt -> In (Some a) ps ->
  exists v, h !! a = Some v /\
            snd (defaultsLoop ps h) !! a = Some (defaultsOf v).
Proof.
  revert h. induction ps as [|[a0|] rest IH]; intros h;
    cbn [defaultsLoop]; [by intros _ []| |done].
  destruct (h !! a0) as [v0|] eqn:Hv0; [|done].
  intros Hret Hin.
  set (h1 := <[a0 := defaultsOf v0]> h) in *.
  destruct (decide (a0 = a)) as [->|Hne].
  - exists v0. split; [done|].
    destruct (defaultsLoop_lookup rest h1 a) as [Hsame|(v & _ & Hv & Hv')].
    + rewrite Hsame. apply lookup_insert_eq.
    + subst h1. rewrite lookup_insert_eq in Hv. injection Hv as <-.
      by rewrite Hv', defaultsOf_idempotent.
  - destruct Hin as [Heq|Hin]; [congruence|].
    destruct (IH h1 Hret Hin) as (v & Hv & Hv').
    subst h1. rewrite lookup_insert_ne in Hv by done. eauto.
Qed.

(** Monitors with nothing left to fill make the loop a no-op. *)
Lemma defaultsLoop_fixed (ps : list (option addr))
    (h : gmap addr ValidatorMonitor) :
  (forall a w, In (Some a) ps -> h !! a = Some w -> defaultsOf w = w) ->
  snd (defaultsLoop ps h) = h.
Proof.
  induction ps as [|[a0|] rest IH]; intros Hfix;
    cbn [defaultsLoop]; [done| |done].
  destruct (h !! a0) as [v0|] eqn:Hv0; [|done].
  rewrite (Hfix a0 v0) by (by left || done).
  rewrite insert_id by done.
  apply IH. intros a w Hin. apply Hfix. by right.
Qed.

Lemma defaultsLoop_idempotent (ps : list (option addr))
    (h : gmap addr ValidatorMonitor) :
  defaultsLoop ps (snd (defaultsLoop ps h)) = defaultsLoop ps h.
Proof.
  revert h. induction ps as [|[a0|] rest IH]; intros h;
    cbn [defaultsLoop]; [done| |done].
  destruct (h !! a0) as [v0|] eqn:Hv0; cbn [defaultsLoop snd].
  - set (h1 := <[a0 := defaultsOf v0]> h).
    assert (Hkeep : snd (defaultsLoop rest h1) !! a0 = Some (defaultsOf v0)).
    { destruct (defaultsLoop_lookup rest h1 a0) as [->|(v & _ & Hv & ->)].
      - apply lookup_insert_eq.
      - subst h1. rewrite lookup_insert_eq in Hv. injection Hv as <-.
        by rewrite defaultsOf_idempotent. }
    rewrite Hkeep, defaultsOf_idempotent, insert_id by done. apply IH.
  - by rewrite Hv0.
Qed.


Lemma getUnsetDefaults_lookup (m : memory) (a : addr) :
  monitors (snd (getUnsetDefaults m)) !! a = monitors m !! a \/
  exists v,
    In (Some a) (Validators (config m)) /\
    monitors m !! a = Some v /\
    monitors (snd (getUnsetDefaults m)) !! a = Some (defaultsOf v).
Proof.
  unfold getUnsetDefaults.
  destruct (Notifications (config m)); [|by left].
  pose proof (defaultsLoop_lookup (Validators (config m)) (monitors m) a)
    as Hloop.
  by destruct (defaultsLoop (Validators (config m)) (monitors m)).
Qed.

Lemma getUnsetDefaults_listed (m : memory) (a : addr) :
  fst (getUnsetDefaults m) = Return tt ->
  In (Some a) (Validators (config m)) ->
  exists v,
    monitors m !! a = Some v /\
    monitors (snd (getUnsetDefaults m)) !! a = Some (defaultsOf v).
Proof.
  unfold getUnsetDefaults.
  destruct (Notifications (config m)); [|done].
  pose proof (defaultsLoop_returns (Validators (config m)) (monitors m) a)
    as Hloop.
  by destruct (defaultsLoop (Validators (config m)) (monitors m)).
Qed.




Example getUnsetDefaults_overwrites_integer_zero :
  NotifyEvery tunedMonitor = 0 /\
  NotifyEvery (defaultsOf tunedMonitor) = defaultNotifyEvery.
Proof. split; reflexivity. Qed.

(** On the tuned monitor: the chosen thresholds and the pointer to zero
    stay, the unset ones get their defaults. *)
Example defaultsOf_tunedMonitor :
  defaultsOf tunedMonitor
  = set_MissedBlocksRedFrom (Some 100)
      (set_MissedBlocksYellowFrom (Some 50)
         (set_NotifyEvery 20
            (set_SlashingPeriodUptimeErrorThreshold 98%float tunedMonitor))).
Proof. reflexivity. Qed.

Example defaultsOf_keeps_pointer_to_zero :
  MissedBlocksGreenTo (defaultsOf tunedMonitor) = Some 0.
Proof. reflexivity. Qed.

Example getUnsetDefaults_sampleMemory :
  getUnsetDefaults sampleMemory
  = (Return tt,
     {| config := config sampleMemory;
        monitors := {[ 1%positive := defaultsOf bareMonitor;
                       2%positive := defaultsOf tunedMonitor ]} |}).
Proof. vm_compute. reflexivity. Qed.

Lemma defaulted_fixed (v w : ValidatorMonitor) :
  defaulted v w -> defaultsOf w = w.
Proof.
  intros H. apply (defaulted_functional w).
  - apply defaultsOf_defaulted.
  - by apply (defaulted_stable v).
Qed.

(** C3.  Running [getUnsetDefaults] on the memory a first run left gives
    the same completion and the same memory as the first run.  More
    generally, on any memory whose listed monitors hold thresholds as a
    defaulting pass leaves them (such as the one read back from a saved,
    defaulted config), the pass changes nothing. *)
Theorem getUnsetDefaults_idempotent (m : memory) :
  getUnsetDefaults (snd (getUnsetDefaults m)) = getUnsetDefaults m /\
  forall m2 : memory,
    (forall a w, In (Some a) (Validators (config m2)) ->
                 monitors m2 !! a = Some w -> exists v, defaulted v w) ->
    snd (getUnsetDefaults m2) = m2.
Proof.
  split.
  - unfold getUnsetDefaults.
    destruct (Notifications (config m)) as [n|] eqn:Hn;
      cbn [snd config]; [|by rewrite Hn].
    pose proof (defaultsLoop_idempotent (Validators (config m)) (monitors m))
      as Hidem.
    destruct (defaultsLoop (Validators (config m)) (monitors m)) as [r h].
    cbn [snd config monitors] in *. by rewrite Hn, Hidem.
  - intros [c h] Hfix. unfold getUnsetDefaults. cbn [config monitors] in *.
    destruct (Notifications c); [|done].
    pose proof (defaultsLoop_fixed (Validators c) h) as Hsame.
    destruct (defaultsLoop (Validators c) h) as [r h'].
    cbn [snd] in *. rewrite Hsame; [done|].
    intros a w Hin Hw. destruct (Hfix a w Hin Hw) as [v Hv].
    by apply (defaulted_fixed v).
Qed.

Lemma getUnsetDefaults_idempotent_witness :
  getUnsetDefaults (snd (getUnsetDefaults sampleMemory))
  = getUnsetDefaults sampleMemory /\
  snd (getUnsetDefaults
         {| config := config sampleMemory;
            monitors := {[ 1%positive := defaultsOf bareMonitor;
                           2%positive := defaultsOf tunedMonitor ]} |})
  = {| config := config sampleMemory;
       monitors := {[ 1%positive := defaultsOf bareMonitor;
                      2%positive := defaultsOf tunedMonitor ]} |}.
Proof.
  split; [exact (proj1 (getUnsetDefaults_idempotent sampleMemory))|].
  apply (proj2 (getUnsetDefaults_idempotent sampleMemory)).
  intros a w _ Hw. cbn [monitors] in Hw.
  destruct (decide (a = 1%positive)) as [->|H1].
  - rewrite lookup_insert_eq in Hw. injection Hw as <-.
    exists bareMonitor. apply defaultsOf_defaulted.
  - rewrite lookup_insert_ne in Hw by done.
    destruct (decide (a = 2%positive)) as [->|H2].
    + rewrite lookup_singleton_eq in Hw. injection Hw as <-.
      exists tunedMonitor. apply defaultsOf_defaulted.
    + rewrite lookup_singleton_ne in Hw by done. discriminate Hw.
Defined.

(** ** The default bands *)

(** With the default boundaries a count falls in one band only, whatever
    the window size. *)
Lemma default_bands_partition (v : ValidatorMonitor) (count : Z) :
  MissedBlocksGreenTo v = Some 49 ->
  MissedBlocksYellowFrom v = Some 50 ->
  MissedBlocksYellowTo v = Some 99 ->
  MissedBlocksRedFrom v = Some 100 ->
  0 <= count <= RecentBlocksToCheck v ->
  exists b, bands_of v count = [b].
Proof.
  intros Hg Hyf Hyt Hr Hc. unfold bands_of, in_band.
  rewrite Hg, Hyf, Hyt, Hr. cbn [List.filter].
  destruct (Z.leb_spec 0 count), (Z.leb_spec count 49),
    (Z.leb_spec 50 count), (Z.leb_spec count 99),
    (Z.leb_spec 100 count), (Z.leb_spec count (RecentBlocksToCheck v));
    cbn [andb]; try lia; eauto.
Qed.

(** C4.  For a listed monitor whose four band fields are nil, once
    [getUnsetDefaults] has returned: the boundaries are 49, 50, 99 and
    100, the window size is 20 if it was unset, 49 < 50 <= 99 < 100, and
    every count from 0 to the window size falls in exactly one band. *)
Theorem default_bands_monotonic_gap_free
    (m : memory) (a : addr) (v : ValidatorMonitor) :
  fst (getUnsetDefaults m) = Return tt ->
  In (Some a) (Validators (config m)) ->
  monitors m !! a = Some v ->
  MissedBlocksGreenTo v = None ->
  MissedBlocksYellowFrom v = None ->
  MissedBlocksYellowTo v = None ->
  MissedBlocksRedFrom v = None ->
  exists v',
    monitors (snd (getUnsetDefaults m)) !! a = Some v' /\
    MissedBlocksGreenTo v' = Some 49 /\
    MissedBlocksYellowFrom v' = Some 50 /\
    MissedBlocksYellowTo v' = Some 99 /\
    MissedBlocksRedFrom v' = Some 100 /\
    (RecentBlocksToCheck v = 0 -> RecentBlocksToCheck v' = 20) /\
    bands_monotonic v' /\
    forall count : Z,
      0 <= count <= RecentBlocksToCheck v' ->
      exists b, bands_of v' count = [b].
Proof.
  intros Hret Hin Hv Hg Hyf Hyt Hr.
  destruct (getUnsetDefaults_listed m a Hret Hin) as (v0 & Hv0 & Hv').
  rewrite Hv in Hv0. injection Hv0 as <-.
  pose proof (defaultsOf_defaulted v) as Hd.
  set (v' := defaultsOf v) in *.
  destruct Hd as (_&_&_&_&_&_&_&_&_&_&_&_&_&Hrb&_&_&Hg'&Hyf'&Hyt'&Hr').
  rewrite Hg in Hg'. rewrite Hyf in Hyf'. rewrite Hyt in Hyt'.
  rewrite Hr in Hr'.
  exists v'. repeat (split; [done|]). split; [|split].
  - intros Hz. by rewrite Hrb, Hz.
  - unfold bands_monotonic. rewrite Hg', Hyf', Hyt', Hr'. lia.
  - intros count. by apply default_bands_partition.
Qed.

Lemma default_bands_monotonic_gap_free_witness :
  fst (getUnsetDefaults sampleMemory) = Return tt /\
  In (Some 1%positive) (Validators (config sampleMemory)) /\
  monitors sampleMemory !! 1%positive = Some bareMonitor /\
  exists v',
    monitors (snd (getUnsetDefaults sampleMemory)) !! 1%positive = Some v' /\
    MissedBlocksGreenTo v' = Some 49 /\
    MissedBlocksYellowFrom v' = Some 50 /\
    MissedBlocksYellowTo v' = Some 99 /\
    MissedBlocksRedFrom v' = Some 100 /\
    (RecentBlocksToCheck bareMonitor = 0 -> RecentBlocksToCheck v' = 20) /\
    bands_monotonic v' /\
    forall count : Z,
      0 <= count <= RecentBlocksToCheck v' ->
      exists b, bands_of v' count = [b].
Proof.
  assert (Hret : fst (getUnsetDefaults sampleMemory) = Return tt)
    by reflexivity.
  assert (Hin : In (Some 1%positive) (Validators (config sampleMemory)))
    by (left; reflexivity).
  assert (Hv : monitors sampleMemory !! 1%positive = Some bareMonitor)
    by reflexivity.
  split; [exact Hret|]. split; [exact Hin|]. split; [exact Hv|].
  exact (default_bands_monotonic_gap_free sampleMemory 1%positive bareMonitor
           Hret Hin Hv eq_refl eq_refl eq_refl eq_refl).
Defined.

(** With the defaults, and the window of 20, every count of the window is
    green; the red band, from 100 up to the window size, is empty. *)
Example default_bands_of_window :
  map (bands_of (defaultsOf bareMonitor)) [0; 10; 20] = [[green]; [green]; [green]]
  /\ bands_of (defaultsOf bareMonitor) 100 = [].
Proof. split; reflexivity. Qed.

(** ** Saving the config *)

(** C6, as the code has it.  When serialization succeeds, [saveConfig]
    locks, issues one whole-file write of the serialized bytes, and
    unlocks.  If the write succeeds the file holds exactly those bytes
    and no other file changes.  The write is not atomic: if opening the
    file fails the disk is as before, if writing fails part-way the file
    holds only the bytes written so far; either error is printed and the
    call returns as usual. *)
Theorem saveConfig_whole_file_write
    (yaml_Marshal : memory -> list Byte.byte * option error)
    (configFile : string) (m : memory) (io : write_outcome) (w : world)
    (yamlBytes : list Byte.byte) :
  yaml_Marshal m = (yamlBytes, None) ->
  match io with
  | WriteOk =>
      files (saveConfig yaml_Marshal configFile m io w)
      = <[configFile := yamlBytes]> (files w) /\
      trace (saveConfig yaml_Marshal configFile m io w)
      = (trace w ++ [EvLock; EvWriteFile configFile yamlBytes 384;
                     EvUnlock])%list
  | OpenFails e =>
      files (saveConfig yaml_Marshal configFile m io w) = files w /\
      trace (saveConfig yaml_Marshal configFile m io w)
      = (trace w ++ [EvLock; EvWriteFile configFile yamlBytes 384;
                     EvPrintf ("Error saving config yaml "
                                 ++ Error e ++ newline)%string;
                     EvUnlock])%list
  | WriteFailsAfter n e =>
      files (saveConfig yaml_Marshal configFile m io w)
      = <[configFile := take n yamlBytes]> (files w) /\
      trace (saveConfig yaml_Marshal configFile m io w)
      = (trace w ++ [EvLock; EvWriteFile configFile yamlBytes 384;
                     EvPrintf ("Error saving config yaml "
                                 ++ Error e ++ newline)%string;
                     EvUnlock])%list
  end.
Proof.
  intros Hm. unfold saveConfig. rewrite Hm.
  destruct io; cbn [os_WriteFile emit files trace];
    by rewrite <- !app_assoc.
Qed.

Lemma saveConfig_whole_file_write_witness :
  marshalOk sampleMemory = (sampleYaml, None) /\
  files (saveConfig marshalOk configFilePath sampleMemory WriteOk sampleWorld)
  = <[configFilePath := sampleYaml]> (files sampleWorld) /\
  trace (saveConfig marshalOk configFilePath sampleMemory WriteOk sampleWorld)
  = (trace sampleWorld
     ++ [EvLock; EvWriteFile configFilePath sampleYaml 384; EvUnlock])%list.
Proof.
  split; [reflexivity|].
  exact (saveConfig_whole_file_write marshalOk configFilePath sampleMemory
           WriteOk sampleWorld sampleYaml eq_refl).
Defined.

(** C6, as the claim has it, fails when the disk fills up part-way through
    the write: serialization raised no error, yet the file holds neither
    the full serialized config nor its previous content, only the first
    five bytes. *)
Lemma saveConfig_partial_write_not_atomic :
  let io := WriteFailsAfter 5 (errors_New "no space left on device") in
  let w' := saveConfig marshalOk configFilePath sampleMemory io sampleWorld in
  files w' !! configFilePath = Some (list_byte_of_string "valid") /\
  ~ (files w' !! configFilePath = Some (fst (marshalOk sampleMemory)) \/
     (snd (marshalOk sampleMemory) <> None /\
      files w' !! configFilePath = files sampleWorld !! configFilePath)).
Proof.
  intros io w'. split; [reflexivity|].
  intros [Hfull|[Herr _]].
  - vm_compute in Hfull. discriminate Hfull.
  - by apply Herr.
Qed.

(** The marshal error is printed and the write goes ahead with the bytes
    [yaml.Marshal] returned, none: the file is left empty. *)
Example saveConfig_marshal_error_still_writes :
  let w' := saveConfig marshalFails configFilePath sampleMemory WriteOk
              sampleWorld in
  files w' !! configFilePath = Some [] /\
  trace w'
  = [EvLock;
     EvPrintf ("Error during config yaml marshal cannot marshal" ++ newline)%string;
     EvWriteFile configFilePath [] 384;
     EvUnlock].
Proof. split; reflexivity. Qed.

(** * Further properties of the same functions *)

(** ** Defaulting: completion, partial effect, order *)

Lemma defaultsLoop_app (pre post : list (option addr))
    (h : gmap addr ValidatorMonitor) :
  defaultsLoop (pre ++ post)%list h
  = match defaultsLoop pre h with
    | (Return _, h1) => defaultsLoop post h1
    | (Panic, h1) => (Panic, h1)
    end.
Proof.
  revert h. induction pre as [|[a0|] pre IH]; intros h;
    cbn [defaultsLoop app]; [done| |done].
  destruct (h !! a0); [apply IH|done].
Qed.

(** The loop runs to its end exactly when no entry is nil or dangling. *)
Lemma defaultsLoop_returns_iff (ps : list (option addr))
    (h : gmap addr ValidatorMonitor) :
  fst (defaultsLoop ps h) = Return tt <->
  forall p, In p ps -> exists a, p = Some a /\ is_Some (h !! a).
Proof.
  revert h. induction ps as [|[a0|] rest IH]; intros h; cbn [defaultsLoop].
  - split; [by intros _ p []|done].
  - destruct (h !! a0) as [v0|] eqn:Hv0.
    + rewrite IH. split.
      * intros Hall p [<-|Hin]; [by eauto|].
        destruct (Hall p Hin) as (a & -> & Ha). exists a. split; [done|].
        destruct (decide (a0 = a)) as [<-|Hne]; [by eauto|].
        by rewrite lookup_insert_ne in Ha.
      * intros Hall p Hin.
        destruct (Hall p (or_intror Hin)) as (a & -> & Ha).
        exists a. split; [done|].
        destruct (decide (a0 = a)) as [<-|Hne];
          [rewrite lookup_insert_eq; by eauto|by rewrite lookup_insert_ne].
    + split; [done|]. intros Hall.
      destruct (Hall (Some a0) (or_introl eq_refl)) as (a & [= <-] & Ha).
      rewrite Hv0 in Ha. by destruct Ha.
  - split; [done|]. intros Hall.
    by destruct (Hall None (or_introl eq_refl)) as (a & ? & _).
Qed.

(** After a loop that ran to its end: listed monitors defaulted, the
    others as before. *)
Lemma defaultsLoop_returned_lookup (ps : list (option addr))
    (h : gmap addr ValidatorMonitor) (a : addr) :
  fst (defaultsLoop ps h) = Return tt ->
  (In (Some a) ps -> snd (defaultsLoop ps h) !! a = defaultsOf <$> h !! a) /\
  (~ In (Some a) ps -> snd (defaultsLoop ps h) !! a = h !! a).
Proof.
  intros Hret. split; intros Hin.
  - destruct (defaultsLoop_returns ps h a Hret Hin) as (v & Hv & Hv').
    by rewrite Hv, Hv'.
  - by destruct (defaultsLoop_lookup ps h a) as [Hsame|(v & Hin' & _)].
Qed.

(** X1.  In a memory where every non-nil entry of [Validators] points to a
    monitor, [getUnsetDefaults] returns normally exactly when
    [Notifications] is non-nil and no entry of [Validators] is nil. *)
Theorem getUnsetDefaults_returns_iff (m : memory) :
  (forall a, In (Some a) (Validators (config m)) ->
             is_Some (monitors m !! a)) ->
  fst (getUnsetDefaults m) = Return tt <->
  Notifications (config m) <> None /\ ~ In None (Validators (config m)).
Proof.
  intros Hwf. unfold getUnsetDefaults.
  destruct (Notifications (config m)) as [n|];
    [|by split; [|intros [? _]]].
  pose proof (defaultsLoop_returns_iff (Validators (config m)) (monitors m))
    as Hiff.
  destruct (defaultsLoop (Validators (config m)) (monitors m)) as [r h].
  cbn [fst] in *. rewrite Hiff. split.
  - intros Hall. split; [done|]. intros Hnil.
    by destruct (Hall None Hnil) as (a & ? & _).
  - intros [_ Hnonil] [a|] Hin; [|done].
    exists a. split; [done|by apply Hwf].
Qed.

Lemma getUnsetDefaults_returns_iff_witness :
  (forall a, In (Some a) (Validators (config sampleMemory)) ->
             is_Some (monitors sampleMemory !! a)) /\
  (fst (getUnsetDefaults sampleMemory) = Return tt <->
   Notifications (config sampleMemory) <> None /\
   ~ In None (Validators (config sampleMemory))).
Proof.
  assert (Hwf : forall a, In (Some a) (Validators (config sampleMemory)) ->
                          is_Some (monitors sampleMemory !! a)).
  { intros a [H|[H|[H|[]]]]; injection H as <-; eexists; reflexivity. }
  split; [exact Hwf|].
  exact (getUnsetDefaults_returns_iff sampleMemory Hwf).
Defined.

(** X2.  When [Notifications] is non-nil and the first nil entry of
    [Validators] comes after the entries [pre], the call panics having
    defaulted the monitors listed in [pre] and no other. *)
Theorem getUnsetDefaults_panics_at_nil_entry
    (m : memory) (pre rest : list (option addr)) :
  Notifications (config m) <> None ->
  Validators (config m) = (pre ++ None :: rest)%list ->
  (forall p, In p pre -> exists a, p = Some a /\ is_Some (monitors m !! a)) ->
  fst (getUnsetDefaults m) = Panic /\
  forall a : addr,
    (In (Some a) pre ->
     monitors (snd (getUnsetDefaults m)) !! a
     = defaultsOf <$> monitors m !! a) /\
    (~ In (Some a) pre ->
     monitors (snd (getUnsetDefaults m)) !! a = monitors m !! a).
Proof.
  intros Hn Hps Hpre. unfold getUnsetDefaults.
  destruct (Notifications (config m)) as [n|]; [clear Hn|done].
  rewrite Hps, defaultsLoop_app.
  apply defaultsLoop_returns_iff in Hpre.
  pose proof (fun a => defaultsLoop_returned_lookup pre (monitors m) a Hpre)
    as Hlook.
  destruct (defaultsLoop pre (monitors m)) as [[[]|] h1]; [|done].
  cbn [defaultsLoop fst snd monitors] in *. split; [done|]. apply Hlook.
Qed.

Lemma getUnsetDefaults_panics_at_nil_entry_witness :
  Notifications (config holedMemory) <> None /\
  Validators (config holedMemory)
  = ([Some 1%positive] ++ None :: [Some 2%positive])%list /\
  (forall p, In p [Some 1%positive] ->
             exists a, p = Some a /\ is_Some (monitors holedMemory !! a)) /\
  fst (getUnsetDefaults holedMemory) = Panic /\
  forall a : addr,
    (In (Some a) [Some 1%positive] ->
     monitors (snd (getUnsetDefaults holedMemory)) !! a
     = defaultsOf <$> monitors holedMemory !! a) /\
    (~ In (Some a) [Some 1%positive] ->
     monitors (snd (getUnsetDefaults holedMemory)) !! a
     = monitors holedMemory !! a).
Proof.
  assert (Hn : Notifications (config holedMemory) <> None) by discriminate.
  assert (Hpre : forall p, In p [Some 1%positive] ->
             exists a, p = Some a /\ is_Some (monitors holedMemory !! a)).
  { intros p [<-|[]]. exists 1%positive. split; [reflexivity|].
    eexists; reflexivity. }
  split; [exact Hn|]. split; [reflexivity|]. split; [exact Hpre|].
  exact (getUnsetDefaults_panics_at_nil_entry holedMemory
           [Some 1%positive] [Some 2%positive] Hn eq_refl Hpre).
Defined.

(** X3.  [getUnsetDefaults] neither adds nor removes a monitor: the
    addresses that hold a monitor are the same before and after, whether
    the call returns or panics. *)
Theorem getUnsetDefaults_same_addresses (m : memory) :
  dom (monitors (snd (getUnsetDefaults m))) = dom (monitors m).
Proof.
  apply set_eq. intros a. rewrite !elem_of_dom.
  destruct (getUnsetDefaults_lookup m a) as [->|(v & _ & -> & ->)];
    [done|by split; eauto].
Qed.

Lemma defaulted_nothing_unset (v v' : ValidatorMonitor) :
  defaulted v v' -> nothing_unset v'.
Proof.
  destruct float64_defaults_nonzero as [Hw He].
  unfold defaulted, nothing_unset.
  intros (_&_&_&_&_&_&_&_&_&_&_&H1&H2&H3&H4&H5&H6&H7&H8&H9).
  rewrite H1, H2, H3, H4, H5, H6, H7, H8, H9.
  split; [by destruct (float64_is_zero
                         (SlashingPeriodUptimeWarningThreshold v)) eqn:E|].
  split; [by destruct (float64_is_zero
                         (SlashingPeriodUptimeErrorThreshold v)) eqn:E|].
  split; [by destruct (Z.eqb_spec (RecentBlocksToCheck v) 0)|].
  split; [by destruct (Z.eqb_spec (NotifyEvery v) 0)|].
  split; [by destruct (Z.eqb_spec (RecentMissedBlocksNotifyThreshold v) 0)|].
  split; [by destruct (MissedBlocksGreenTo v)|].
  split; [by destruct (MissedBlocksYellowFrom v)|].
  split; [by destruct (MissedBlocksYellowTo v)|].
  by destruct (MissedBlocksRedFrom v).
Qed.

(** X4.  Once [getUnsetDefaults] has returned, every listed monitor has
    all nine thresholds set: neither uptime threshold compares equal to
    zero, [RecentBlocksToCheck], [NotifyEvery] and
    [RecentMissedBlocksNotifyThreshold] are not zero, and no band boundary
    is nil. *)
Theorem getUnsetDefaults_leaves_nothing_unset (m : memory) (a : addr) :
  fst (getUnsetDefaults m) = Return tt ->
  In (Some a) (Validators (config m)) ->
  exists v', monitors (snd (getUnsetDefaults m)) !! a = Some v' /\
             nothing_unset v'.
Proof.
  intros Hret Hin.
  destruct (getUnsetDefaults_listed m a Hret Hin) as (v & _ & Hv').
  exists (defaultsOf v). split; [done|].
  apply (defaulted_nothing_unset v), defaultsOf_defaulted.
Qed.

Lemma getUnsetDefaults_leaves_nothing_unset_witness :
  fst (getUnsetDefaults sampleMemory) = Return tt /\
  In (Some 2%positive) (Validators (config sampleMemory)) /\
  exists v', monitors (snd (getUnsetDefaults sampleMemory)) !! 2%positive
             = Some v' /\
             nothing_unset v'.
Proof.
  assert (Hret : fst (getUnsetDefaults sampleMemory) = Return tt)
    by reflexivity.
  assert (Hin : In (Some 2%positive) (Validators (config sampleMemory)))
    by (right; left; reflexivity).
  split; [exact Hret|]. split; [exact Hin|].
  exact (getUnsetDefaults_leaves_nothing_unset sampleMemory 2%positive
           Hret Hin).
Defined.

(** X5.  The order of [Validators] and how often a monitor is listed make
    no difference: two configs over the same monitors whose lists have the
    same entries leave, when both calls return, the same monitors. *)
Theorem getUnsetDefaults_order_irrelevant (m1 m2 : memory) :
  monitors m1 = monitors m2 ->
  (forall p, In p (Validators (config m1)) <-> In p (Validators (config m2))) ->
  fst (getUnsetDefaults m1) = Return tt ->
  fst (getUnsetDefaults m2) = Return tt ->
  monitors (snd (getUnsetDefaults m1)) = monitors (snd (getUnsetDefaults m2)).
Proof.
  intros Hmon Hsame. unfold getUnsetDefaults.
  destruct (Notifications (config m1)); [|done].
  destruct (Notifications (config m2)); [|done].
  pose proof (defaultsLoop_returned_lookup (Validators (config m1))
                (monitors m1)) as H1.
  pose proof (defaultsLoop_returned_lookup (Validators (config m2))
                (monitors m2)) as H2.
  destruct (defaultsLoop (Validators (config m1)) (monitors m1)) as [r1 h1].
  destruct (defaultsLoop (Validators (config m2)) (monitors m2)) as [r2 h2].
  cbn [fst snd monitors] in *. intros Hr1 Hr2.
  apply map_eq. intros a.
  destruct (H1 a Hr1) as [Hin1 Hout1]. destruct (H2 a Hr2) as [Hin2 Hout2].
  destruct (in_dec (option_eq_dec (A:=addr)) (Some a)
              (Validators (config m1))) as [Hin|Hout].
  - rewrite Hin1, Hin2, Hmon; [done|by apply Hsame|done].
  - rewrite Hout1, Hout2, Hmon; [done| |done].
    intros Hin. by apply Hout, Hsame.
Qed.

Lemma getUnsetDefaults_order_irrelevant_witness :
  monitors sampleMemory = monitors reorderedMemory /\
  (forall p, In p (Validators (config sampleMemory)) <->
             In p (Validators (config reorderedMemory))) /\
  fst (getUnsetDefaults sampleMemory) = Return tt /\
  fst (getUnsetDefaults reorderedMemory) = Return tt /\
  monitors (snd (getUnsetDefaults sampleMemory))
  = monitors (snd (getUnsetDefaults reorderedMemory)).
Proof.
  assert (Hsame : forall p, In p (Validators (config sampleMemory)) <->
                            In p (Validators (config reorderedMemory))).
  { intros p. cbn. tauto. }
  assert (H1 : fst (getUnsetDefaults sampleMemory) = Return tt)
    by reflexivity.
  assert (H2 : fst (getUnsetDefaults reorderedMemory) = Return tt)
    by reflexivity.
  split; [reflexivity|]. split; [exact Hsame|].
  split; [exact H1|]. split; [exact H2|].
  exact (getUnsetDefaults_order_irrelevant sampleMemory reorderedMemory
           eq_refl Hsame H1 H2).
Defined.

(** X6.  The uptime thresholds are tested with [== 0] and nothing else:
    on a listed monitor, once the call has returned, a warning threshold of
    negative zero has been replaced by the default 99.80, while NaN and
    the two infinities are kept as they are. *)
Theorem getUnsetDefaults_float_zero_test
    (m : memory) (a : addr) (v : ValidatorMonitor) :
  fst (getUnsetDefaults m) = Return tt ->
  In (Some a) (Validators (config m)) ->
  monitors m !! a = Some v ->
  exists v',
    monitors (snd (getUnsetDefaults m)) !! a = Some v' /\
    (SlashingPeriodUptimeWarningThreshold v = PrimFloat.neg_zero ->
     SlashingPeriodUptimeWarningThreshold v'
     = defaultSlashingPeriodUptimeWarningThreshold) /\
    (SlashingPeriodUptimeWarningThreshold v = PrimFloat.nan ->
     SlashingPeriodUptimeWarningThreshold v' = PrimFloat.nan) /\
    (SlashingPeriodUptimeWarningThreshold v = PrimFloat.infinity ->
     SlashingPeriodUptimeWarningThreshold v' = PrimFloat.infinity) /\
    (SlashingPeriodUptimeWarningThreshold v = PrimFloat.neg_infinity ->
     SlashingPeriodUptimeWarningThreshold v' = PrimFloat.neg_infinity).
Proof.
  intros Hret Hin Hv.
  destruct (getUnsetDefaults_listed m a Hret Hin) as (v0 & Hv0 & Hv').
  rewrite Hv in Hv0. injection Hv0 as <-.
  exists (defaultsOf v). split; [done|].
  destruct (defaultsOf_defaulted v)
    as (_&_&_&_&_&_&_&_&_&_&_&H1&_).
  rewrite H1. repeat split; intros ->; reflexivity.
Qed.

Lemma getUnsetDefaults_float_zero_test_witness :
  let v := set_SlashingPeriodUptimeWarningThreshold PrimFloat.neg_zero
             bareMonitor in
  let m := {| config := config sampleMemory;
              monitors := {[ 1%positive := v; 2%positive := tunedMonitor ]} |} in
  fst (getUnsetDefaults m) = Return tt /\
  In (Some 1%positive) (Validators (config m)) /\
  monitors m !! 1%positive = Some v /\
  SlashingPeriodUptimeWarningThreshold v = PrimFloat.neg_zero /\
  exists v',
    monitors (snd (getUnsetDefaults m)) !! 1%positive = Some v' /\
    SlashingPeriodUptimeWarningThreshold v'
    = defaultSlashingPeriodUptimeWarningThreshold.
Proof.
  intros v m.
  assert (Hret : fst (getUnsetDefaults m) = Return tt) by reflexivity.
  assert (Hin : In (Some 1%positive) (Validators (config m)))
    by (left; reflexivity).
  assert (Hv : monitors m !! 1%positive = Some v) by reflexivity.
  split; [exact Hret|]. split; [exact Hin|]. split; [exact Hv|].
  split; [reflexivity|].
  destruct (getUnsetDefaults_float_zero_test m 1%positive v Hret Hin Hv)
    as (v' & Hv' & Hz & _).
  exists v'. split; [exact Hv'|]. exact (Hz eq_refl).
Defined.

(** X7.  Each band boundary is filled on its own, without regard to the
    others: on a listed monitor whose green-to is set to some [g] of 50 or
    more and whose yellow-from is nil, the call leaves green-to at [g] and
    sets yellow-from to 50, so that green-to is not below yellow-from. *)
Theorem getUnsetDefaults_bands_filled_independently
    (m : memory) (a : addr) (v : ValidatorMonitor) (g : Z) :
  fst (getUnsetDefaults m) = Return tt ->
  In (Some a) (Validators (config m)) ->
  monitors m !! a = Some v ->
  MissedBlocksGreenTo v = Some g ->
  MissedBlocksYellowFrom v = None ->
  50 <= g ->
  exists v',
    monitors (snd (getUnsetDefaults m)) !! a = Some v' /\
    MissedBlocksGreenTo v' = Some g /\
    MissedBlocksYellowFrom v' = Some 50 /\
    ~ bands_monotonic v'.
Proof.
  intros Hret Hin Hv Hg Hyf Hge.
  destruct (getUnsetDefaults_listed m a Hret Hin) as (v0 & Hv0 & Hv').
  rewrite Hv in Hv0. injection Hv0 as <-.
  pose proof (defaultsOf_defaulted v) as Hd.
  set (v' := defaultsOf v) in *.
  destruct Hd as (_&_&_&_&_&_&_&_&_&_&_&_&_&_&_&_&Hg'&Hyf'&_&_).
  rewrite Hg in Hg'. rewrite Hyf in Hyf'.
  exists v'. split; [done|]. split; [done|]. split; [done|].
  unfold bands_monotonic. rewrite Hg', Hyf'.
  destruct (MissedBlocksYellowTo v'), (MissedBlocksRedFrom v'); lia.
Qed.

Lemma getUnsetDefaults_bands_filled_independently_witness :
  let v := set_MissedBlocksGreenTo (Some 60) bareMonitor in
  let m := {| config := config sampleMemory;
              monitors := {[ 1%positive := v; 2%positive := tunedMonitor ]} |} in
  fst (getUnsetDefaults m) = Return tt /\
  In (Some 1%positive) (Validators (config m)) /\
  monitors m !! 1%positive = Some v /\
  MissedBlocksGreenTo v = Some 60 /\
  MissedBlocksYellowFrom v = None /\
  50 <= 60 /\
  exists v',
    monitors (snd (getUnsetDefaults m)) !! 1%positive = Some v' /\
    MissedBlocksGreenTo v' = Some 60 /\
    MissedBlocksYellowFrom v' = Some 50 /\
    ~ bands_monotonic v'.
Proof.
  intros v m.
  assert (Hret : fst (getUnsetDefaults m) = Return tt) by reflexivity.
  assert (Hin : In (Some 1%positive) (Validators (config m)))
    by (left; reflexivity).
  assert (Hv : monitors m !! 1%positive = Some v) by reflexivity.
  assert (Hge : 50 <= 60) by discriminate.
  split; [exact Hret|]. split; [exact Hin|]. split; [exact Hv|].
  split; [reflexivity|]. split; [reflexivity|]. split; [exact Hge|].
  exact (getUnsetDefaults_bands_filled_independently m 1%positive v 60
           Hret Hin Hv eq_refl eq_refl Hge).
Defined.

(** ** Ignored alerts: the first decisive entry *)

Lemma AlertActive_range_app (pre post : list (option AlertType))
    (alert : AlertType) :
  AlertActive_range (pre ++ post)%list alert
  = match AlertActive_range pre alert with
    | Return true => AlertActive_range post alert
    | r => r
    end.
Proof.
  induction pre as [|[a|] pre IH]; cbn [AlertActive_range app]; try done.
  by destruct (String.eqb a alert).
Qed.

Lemma AlertActive_range_true_iff (entries : list (option AlertType))
    (alert : AlertType) :
  AlertActive_range entries alert = Return true <->
  Forall (fun e => e <> None /\ e <> Some alert) entries.
Proof.
  induction entries as [|[a|] rest IH]; cbn [AlertActive_range].
  - split; [constructor|done].
  - destruct (String.eqb_spec a alert) as [->|Hne].
    + split; [done|]. intros H. inversion H as [|? ? [_ Hx] _]. done.
    + rewrite IH. split.
      * intros H. constructor; [|done]. split; [done|congruence].
      * intros H. by inversion H.
  - split; [done|]. intros H. inversion H as [|? ? [Hx _] _]. done.
Qed.

(** X8.  [AlertActive] runs through a list made of two parts by running
    through the first and, only if that finds every entry non-nil and
    none pointing to the alert, through the second: a panic or a match in
    the first part is final. *)
Theorem AlertActive_of_appended_lists
    (pre post : list (option AlertType)) (a : AlertType) :
  AlertActive {| IgnoreAlerts := (pre ++ post)%list |} a
  = match AlertActive {| IgnoreAlerts := pre |} a with
    | Return true => AlertActive {| IgnoreAlerts := post |} a
    | r => r
    end.
Proof. unfold AlertActive. cbn [IgnoreAlerts]. apply AlertActive_range_app. Qed.

(** X9.  The first entry of [IgnoreAlerts] that is nil or points to the
    alert decides the call: it panics exactly when that entry is nil,
    returns false exactly when that entry points to the alert (nil entries
    further on are never reached), and returns true exactly when there is
    no such entry. *)
Theorem AlertActive_decided_by_first_entry (ac : AlertConfig) (a : AlertType) :
  (AlertActive ac a = Panic <->
   exists pre rest,
     IgnoreAlerts ac = (pre ++ None :: rest)%list /\
     Forall (fun e => e <> None /\ e <> Some a) pre) /\
  (AlertActive ac a = Return false <->
   exists pre rest,
     IgnoreAlerts ac = (pre ++ Some a :: rest)%list /\
     Forall (fun e => e <> None /\ e <> Some a) pre) /\
  (AlertActive ac a = Return true <->
   Forall (fun e => e <> None /\ e <> Some a) (IgnoreAlerts ac)).
Proof.
  unfold AlertActive. generalize (IgnoreAlerts ac) as entries. clear ac.
  intros entries. split; [|split; [|apply AlertActive_range_true_iff]].
  - split.
    + induction entries as [|[x|] rest IH]; cbn [AlertActive_range]; [done| |].
      * destruct (String.eqb_spec x a) as [->|Hne]; [done|].
        intros H. destruct (IH H) as (pre & rest' & -> & Hpre).
        exists (Some x :: pre), rest'. split; [done|].
        constructor; [|done]. split; [done|congruence].
      * intros _. exists [], rest. by split.
    + intros (pre & rest & -> & Hpre).
      apply AlertActive_range_true_iff in Hpre.
      by rewrite AlertActive_range_app, Hpre.
  - split.
    + induction entries as [|[x|] rest IH]; cbn [AlertActive_range]; [done| |done].
      destruct (String.eqb_spec x a) as [->|Hne].
      * intros _. exists [], rest. by split.
      * intros H. destruct (IH H) as (pre & rest' & -> & Hpre).
        exists (Some x :: pre), rest'. split; [done|].
        constructor; [|done]. split; [done|congruence].
    + intros (pre & rest & -> & Hpre).
      apply AlertActive_range_true_iff in Hpre.
      rewrite AlertActive_range_app, Hpre. cbn [AlertActive_range].
      by rewrite String.eqb_refl.
Qed.

Lemma AlertActive_decided_by_first_entry_witness :
  let ac := {| IgnoreAlerts := [Some alertTypeHalt; Some alertTypeJailed;
                                None] |} in
  (exists pre rest,
     IgnoreAlerts ac = (pre ++ Some alertTypeJailed :: rest)%list /\
     Forall (fun e => e <> None /\ e <> Some alertTypeJailed) pre) /\
  AlertActive ac alertTypeJailed = Return false.
Proof.
  intros ac.
  assert (H : exists pre rest,
     IgnoreAlerts ac = (pre ++ Some alertTypeJailed :: rest)%list /\
     Forall (fun e => e <> None /\ e <> Some alertTypeJailed) pre).
  { exists [Some alertTypeHalt], [None]. split; [reflexivity|].
    repeat constructor; discriminate. }
  split; [exact H|].
  exact (proj2 (proj1 (proj2
           (AlertActive_decided_by_first_entry ac alertTypeJailed))) H).
Defined.

(** X10.  When no entry is nil, only which alert types are listed
    matters: two ignore lists with the same entries, in any order and with
    any repetition, give the same answer for every alert. *)
Theorem AlertActive_order_irrelevant (ac1 ac2 : AlertConfig) (a : AlertType) :
  Forall (fun e => e <> None) (IgnoreAlerts ac1) ->
  (forall e, In e (IgnoreAlerts ac1) <-> In e (IgnoreAlerts ac2)) ->
  AlertActive ac1 a = AlertActive ac2 a.
Proof.
  intros Hnn1 Hsame.
  assert (Hnn2 : Forall (fun e => e <> None) (IgnoreAlerts ac2)).
  { rewrite List.Forall_forall in *. intros e He. by apply Hnn1, Hsame. }
  unfold AlertActive.
  rewrite (AlertActive_range_no_nil _ a Hnn1),
    (AlertActive_range_no_nil _ a Hnn2).
  do 2 f_equal. apply eq_true_iff_eq. rewrite !existsb_exists.
  split; intros (e & He & Hm); exists e; (split; [by apply Hsame|done]).
Qed.

Lemma AlertActive_order_irrelevant_witness :
  let ac1 := {| IgnoreAlerts := [Some alertTypeHalt; Some alertTypeJailed] |} in
  let ac2 := {| IgnoreAlerts := [Some alertTypeJailed; Some alertTypeHalt;
                                 Some alertTypeJailed] |} in
  Forall (fun e : option AlertType => e <> None) (IgnoreAlerts ac1) /\
  (forall e, In e (IgnoreAlerts ac1) <-> In e (IgnoreAlerts ac2)) /\
  AlertActive ac1 alertTypeHalt = AlertActive ac2 alertTypeHalt.
Proof.
  intros ac1 ac2.
  assert (Hnn : Forall (fun e : option AlertType => e <> None)
                  (IgnoreAlerts ac1))
    by (repeat constructor; discriminate).
  assert (Hsame : forall e, In e (IgnoreAlerts ac1) <-> In e (IgnoreAlerts ac2))
    by (intros e; cbn; tauto).
  split; [exact Hnn|]. split; [exact Hsame|].
  exact (AlertActive_order_irrelevant ac1 ac2 alertTypeHalt Hnn Hsame).
Defined.

(** ** The decoder: what a success means *)

(** X11.  Whenever [UnmarshalYAML] returns no error, the receiver holds
    one of the eight declared alert types, and it is the very string the
    decoder's callback produced, whatever the receiver held before. *)
Theorem UnmarshalYAML_success_is_declared
    (at_ : AlertType) (unmarshal : string -> string * option error) :
  snd (UnmarshalYAML at_ unmarshal) = None ->
  In (fst (UnmarshalYAML at_ unmarshal)) alertTypes /\
  unmarshal "" = (fst (UnmarshalYAML at_ unmarshal), None).
Proof.
  unfold UnmarshalYAML.
  destruct (unmarshal "") as [s [e|]]; [done|].
  destruct (in_dec string_dec s alertTypes) as [Hs|Hs].
  - by rewrite (scanAlertTypes_member _ _ _ _ Hs).
  - by rewrite (scanAlertTypes_stranger _ _ _ _ Hs).
Qed.

Lemma UnmarshalYAML_success_is_declared_witness :
  snd (UnmarshalYAML alertTypeJailed (fun _ => (alertTypeSlashingSLA, None)))
  = None /\
  In (fst (UnmarshalYAML alertTypeJailed
             (fun _ => (alertTypeSlashingSLA, None)))) alertTypes /\
  (fun _ : string => (alertTypeSlashingSLA, @None error)) ""
  = (fst (UnmarshalYAML alertTypeJailed
            (fun _ => (alertTypeSlashingSLA, None))), None).
Proof.
  split; [reflexivity|].
  exact (UnmarshalYAML_success_is_declared alertTypeJailed
           (fun _ => (alertTypeSlashingSLA, None)) eq_refl).
Defined.

(** X12.  A value the decoder has accepted is accepted again: read back as
    a string into any receiver, it decodes without error to itself. *)
Theorem UnmarshalYAML_accepts_its_results
    (at_ at' : AlertType) (unmarshal : string -> string * option error) :
  snd (UnmarshalYAML at_ unmarshal) = None ->
  UnmarshalYAML at'
    (fun _ => (fst (UnmarshalYAML at_ unmarshal), None))
  = (fst (UnmarshalYAML at_ unmarshal), None).
Proof.
  intros Hok.
  assert (Hin : In (fst (UnmarshalYAML at_ unmarshal)) alertTypes).
  { revert Hok. unfold UnmarshalYAML.
    destruct (unmarshal "") as [s [e|]]; [done|].
    destruct (in_dec string_dec s alertTypes) as [Hs|Hs].
    - by rewrite (scanAlertTypes_member _ _ _ _ Hs).
    - by rewrite (scanAlertTypes_stranger _ _ _ _ Hs). }
  revert Hin. generalize (fst (UnmarshalYAML at_ unmarshal)) as a.
  intros a Hin. unfold UnmarshalYAML.
  by rewrite (scanAlertTypes_member _ _ _ _ Hin).
Qed.

Lemma UnmarshalYAML_accepts_its_results_witness :
  snd (UnmarshalYAML alertTypeJailed (fun _ => (alertTypeOutOfSync, None)))
  = None /\
  UnmarshalYAML alertTypeHalt
    (fun _ => (fst (UnmarshalYAML alertTypeJailed
                      (fun _ => (alertTypeOutOfSync, None))), None))
  = (fst (UnmarshalYAML alertTypeJailed
            (fun _ => (alertTypeOutOfSync, None))), None).
Proof.
  split; [reflexivity|].
  exact (UnmarshalYAML_accepts_its_results alertTypeJailed alertTypeHalt
           (fun _ => (alertTypeOutOfSync, None)) eq_refl).
Defined.

(** ** Saving: errors, other files, the mutex *)

(** X13.  A [yaml.Marshal] error does not stop [saveConfig]: the error is
    printed, and the file is then written with whatever bytes the call
    returned, replacing its previous content. *)
Theorem saveConfig_writes_after_marshal_error
    (yaml_Marshal : memory -> list Byte.byte * option error)
    (configFile : string) (m : memory) (w : world)
    (yamlBytes : list Byte.byte) (e : error) :
  yaml_Marshal m = (yamlBytes, Some e) ->
  files (saveConfig yaml_Marshal configFile m WriteOk w)
  = <[configFile := yamlBytes]> (files w) /\
  trace (saveConfig yaml_Marshal configFile m WriteOk w)
  = (trace w ++ [EvLock;
                 EvPrintf ("Error during config yaml marshal "
                             ++ Error e ++ newline)%string;
                 EvWriteFile configFile yamlBytes 384;
                 EvUnlock])%list.
Proof.
  intros Hm. unfold saveConfig. rewrite Hm.
  cbn [os_WriteFile emit files trace]. by rewrite <- !app_assoc.
Qed.

Lemma saveConfig_writes_after_marshal_error_witness :
  marshalFails sampleMemory = ([], Some (errors_New "cannot marshal")) /\
  files (saveConfig marshalFails configFilePath sampleMemory WriteOk
           sampleWorld)
  = <[configFilePath := []]> (files sampleWorld).
Proof.
  split; [reflexivity|].
  exact (proj1 (saveConfig_writes_after_marshal_error marshalFails
                  configFilePath sampleMemory sampleWorld []
                  (errors_New "cannot marshal") eq_refl)).
Defined.

(** X14.  Whatever [yaml.Marshal] and the write do, [saveConfig] leaves
    every file other than [configFile] as it was. *)
Theorem saveConfig_other_files_untouched
    (yaml_Marshal : memory -> list Byte.byte * option error)
    (configFile : string) (m : memory) (io : write_outcome) (w : world)
    (other : string) :
  other <> configFile ->
  files (saveConfig yaml_Marshal configFile m io w) !! other
  = files w !! other.
Proof.
  intros Hne. unfold saveConfig.
  destruct (yaml_Marshal m) as [b [e|]], io;
    cbn [os_WriteFile emit files trace]; try done;
    by rewrite lookup_insert_ne.
Qed.

Lemma saveConfig_other_files_untouched_witness :
  "./other.yaml" <> configFilePath /\
  files (saveConfig marshalFails configFilePath sampleMemory
           (WriteFailsAfter 3 (errors_New "no space left on device"))
           sampleWorld) !! "./other.yaml"
  = files sampleWorld !! "./other.yaml".
Proof.
  assert (Hne : "./other.yaml" <> configFilePath) by discriminate.
  split; [exact Hne|].
  exact (saveConfig_other_files_untouched marshalFails configFilePath
           sampleMemory
           (WriteFailsAfter 3 (errors_New "no space left on device"))
           sampleWorld "./other.yaml" Hne).
Defined.

(** X15.  On every path, with or without errors, [saveConfig] appends to
    the trace one lock, then exactly one whole-file write, of the bytes
    [yaml.Marshal] returned, to [configFile], with permission 0600, then
    one unlock: the mutex is always released and nothing is written
    outside the lock. *)
Theorem saveConfig_one_write_inside_lock
    (yaml_Marshal : memory -> list Byte.byte * option error)
    (configFile : string) (m : memory) (io : write_outcome) (w : world) :
  exists mid : list event,
    trace (saveConfig yaml_Marshal configFile m io w)
    = (trace w ++ EvLock :: mid ++ [EvUnlock])%list /\
    mutex_events mid = [] /\
    writes_of mid = [(configFile, fst (yaml_Marshal m), 384)].
Proof.
  unfold saveConfig.
  destruct (yaml_Marshal m) as [b [e|]], io as [|e'|n e'];
    cbn [os_WriteFile emit files trace fst]; rewrite <- !app_assoc;
    cbn [app].
  - by exists [EvPrintf ("Error during config yaml marshal "
                           ++ Error e ++ newline)%string;
               EvWriteFile configFile b 384].
  - by exists [EvPrintf ("Error during config yaml marshal "
                           ++ Error e ++ newline)%string;
               EvWriteFile configFile b 384;
               EvPrintf ("Error saving config yaml "
                           ++ Error e' ++ newline)%string].
  - by exists [EvPrintf ("Error during config yaml marshal "
                           ++ Error e ++ newline)%string;
               EvWriteFile configFile b 384;
               EvPrintf ("Error saving config yaml "
                           ++ Error e' ++ newline)%string].
  - by exists [EvWriteFile configFile b 384].
  - by exists [EvWriteFile configFile b 384;
               EvPrintf ("Error saving config yaml "
                           ++ Error e' ++ newline)%string].
  - by exists [EvWriteFile configFile b 384;
               EvPrintf ("Error saving config yaml "
                           ++ Error e' ++ newline)%string].
Qed.

(** X16.  A save whose write succeeds overrides whatever an earlier save
    to the same file left, be it a full document, a prefix or nothing:
    the disk is the one before both saves with the file holding the bytes
    of the second. *)
Theorem saveConfig_last_write_wins
    (yaml_Marshal : memory -> list Byte.byte * option error)
    (configFile : string) (m1 m2 : memory) (io1 : write_outcome) (w : world) :
  files (saveConfig yaml_Marshal configFile m2 WriteOk
           (saveConfig yaml_Marshal configFile m1 io1 w))
  = <[configFile := fst (yaml_Marshal m2)]> (files w).
Proof.
  unfold saveConfig.
  destruct (yaml_Marshal m1) as [b1 [e1|]], (yaml_Marshal m2) as [b2 [e2|]],
    io1; cbn [os_WriteFile emit files trace fst];
    by rewrite ?insert_insert_eq.
Qed.
